(** * ts_plotting: a shallow embedding of [plot_time_series]

    The repository holds one function, [plot_time_series]
    (src/ts_plotting.py), which validates a display mode, resolves a
    colour mapping, builds a Plotly figure out of up to three scatter
    traces, sets a fixed layout and shows the figure.

    The embedding follows the source statement by statement:
    - Python exceptions are the [Raise] results of an error monad;
    - the figure is a mutable object: it lives in a store of figures and
      is reached through a reference, [add_trace] and [update_layout]
      update it in place;
    - [fig.show()] appends the figure, as it is at that moment, to the
      display surface;
    - [color_dict] is a finite map from strings to strings, subscripting
      it with a missing key raises [KeyError];
    - [df.iloc[:, 0]] raises [IndexError] on a frame without columns;
    - [go.Scatter] checks the colours it is given and raises
      [ValueError] on a string that is not a colour for Plotly;
    - [go.Figure()] gives a figure whose layout already carries the
      default template of the Plotly installation.

    Plotly is not part of the repository. What the function's behaviour
    depends on and the source does not fix is a variable of the section
    [Plot]: which strings, besides hexadecimal ones, Plotly takes as a
    colour, the text of its error message, and its default template. *)

From Stdlib Require Import ZArith QArith_base String Ascii.
From stdpp Require Import base option strings list gmap.

Local Open Scope string_scope.
Local Open Scope list_scope.

(** ** Python results *)

Module Py.

Inductive exn : Type :=
| ValueError (msg : string)
| KeyError (key : string)
| IndexError (msg : string).

Inductive result (A : Type) : Type :=
| Ok (a : A)
| Raise (e : exn).

Arguments Ok {A} a.
Arguments Raise {A} e.

End Py.
Export Py.

(** ** pandas: the part of DataFrame the function reads *)

Module Pandas.

(** A frame is a time index and its columns; timestamps are integers
    (nanoseconds since the epoch), cells are rationals. *)
Record DataFrame : Type := mkDataFrame {
  index : list Z;
  columns : list (list Q)
}.

(** [df.iloc[:, 0]]: the first column, [IndexError] when there is none. *)
Definition iloc_col0 (df : DataFrame) : result (list Q) :=
  match columns df with
  | c :: _ => Ok c
  | [] => Raise (IndexError "single positional indexer is out-of-bounds")
  end.

End Pandas.
Export Pandas.

(** ** plotly.graph_objects: traces, layout, figures *)

Module Plotly.

Record Line : Type := mkLine {
  line_color : string;
  line_dash : option string
}.

Record Marker : Type := mkMarker {
  marker_color : string;
  marker_size : option Z
}.

(** [go.Scatter(x=, y=, mode=, name=, marker=, line=)]. *)
Record Scatter : Type := mkScatter {
  x : list Z;
  y : list Q;
  mode : string;
  name : string;
  marker : option Marker;
  line : option Line
}.

Record XAxis : Type := mkXAxis {
  x_showspikes : option bool;
  x_spikemode : option string;
  x_spikesnap : option string;
  x_spikedash : option string;
  x_spikethickness : option Q;
  x_spikecolor : option string;
  x_title : option string
}.

Record YAxis : Type := mkYAxis {
  y_showspikes : option bool;
  y_title : option string
}.

Record Legend : Type := mkLegend {
  orientation : option string;
  yanchor : option string;
  legend_y : option Q;
  xanchor : option string;
  legend_x : option Q
}.

Record Layout : Type := mkLayout {
  title : option string;
  xaxis : XAxis;
  yaxis : YAxis;
  hovermode : option string;
  template : option string;
  legend : Legend
}.

Record Figure : Type := mkFigure {
  data : list Scatter;
  layout : Layout
}.

(** A keyword that is given overrides the property, one that is not
    leaves it as it was. *)
Definition upd {A} (new old : option A) : option A :=
  match new with Some v => Some v | None => old end.

Definition update_xaxis (kw old : XAxis) : XAxis :=
  mkXAxis (upd (x_showspikes kw) (x_showspikes old))
          (upd (x_spikemode kw) (x_spikemode old))
          (upd (x_spikesnap kw) (x_spikesnap old))
          (upd (x_spikedash kw) (x_spikedash old))
          (upd (x_spikethickness kw) (x_spikethickness old))
          (upd (x_spikecolor kw) (x_spikecolor old))
          (upd (x_title kw) (x_title old)).

Definition update_yaxis (kw old : YAxis) : YAxis :=
  mkYAxis (upd (y_showspikes kw) (y_showspikes old))
          (upd (y_title kw) (y_title old)).

Definition update_legend (kw old : Legend) : Legend :=
  mkLegend (upd (orientation kw) (orientation old))
           (upd (yanchor kw) (yanchor old))
           (upd (legend_y kw) (legend_y old))
           (upd (xanchor kw) (xanchor old))
           (upd (legend_x kw) (legend_x old)).

(** The keywords [plot_time_series] passes to [update_layout], in the
    order it passes them; [xaxis_title] and [yaxis_title] are Plotly's
    shorthand for the [title] of the axis. *)
Record LayoutKw : Type := mkLayoutKw {
  kw_title : option string;
  kw_xaxis : XAxis;
  kw_yaxis : YAxis;
  kw_hovermode : option string;
  kw_template : option string;
  kw_xaxis_title : option string;
  kw_yaxis_title : option string;
  kw_legend : Legend
}.

Definition set_x_title (t : option string) (a : XAxis) : XAxis :=
  mkXAxis (x_showspikes a) (x_spikemode a) (x_spikesnap a) (x_spikedash a)
          (x_spikethickness a) (x_spikecolor a) (upd t (x_title a)).

Definition set_y_title (t : option string) (a : YAxis) : YAxis :=
  mkYAxis (y_showspikes a) (upd t (y_title a)).

Definition apply_layout (kw : LayoutKw) (l : Layout) : Layout :=
  mkLayout (upd (kw_title kw) (title l))
           (set_x_title (kw_xaxis_title kw)
                        (update_xaxis (kw_xaxis kw) (xaxis l)))
           (set_y_title (kw_yaxis_title kw)
                        (update_yaxis (kw_yaxis kw) (yaxis l)))
           (upd (kw_hovermode kw) (hovermode l))
           (upd (kw_template kw) (template l))
           (update_legend (kw_legend kw) (legend l)).

Definition with_trace (t : Scatter) (f : Figure) : Figure :=
  mkFigure (data f ++ [t]) (layout f).

Definition with_layout (kw : LayoutKw) (f : Figure) : Figure :=
  mkFigure (data f) (apply_layout kw (layout f)).

(** A colour in hexadecimal notation: [#] followed by three or six
    hexadecimal digits. *)
Definition is_hex_digit (a : ascii) : bool :=
  let n := nat_of_ascii a in
  ((48 <=? n)%nat && (n <=? 57)%nat) || ((65 <=? n)%nat && (n <=? 70)%nat) ||
  ((97 <=? n)%nat && (n <=? 102)%nat).

Definition hex_color (s : string) : bool :=
  match s with
  | String "#"%char digits =>
      ((String.length digits =? 6)%nat || (String.length digits =? 3)%nat) &&
      forallb is_hex_digit (list_ascii_of_string digits)
  | _ => false
  end.

End Plotly.
Export Plotly.

(** ** The interpreter state and the monad of statements *)

(** [figures] is the store of figure objects, a reference is a position
    in it; [displayed] is the display surface: every figure shown so far,
    oldest first. *)
Record World : Type := mkWorld {
  figures : list Figure;
  displayed : list Figure
}.

Definition M (A : Type) : Type := World → result A * World.

Definition run {A} (m : M A) (w : World) : result A * World := m w.

#[export] Instance M_ret : MRet M := λ A a w, (Ok a, w).

#[export] Instance M_bind : MBind M := λ A B f m w,
  match m w with
  | (Ok a, w') => f a w'
  | (Raise e, w') => (Raise e, w')
  end.

Definition raise {A} (e : exn) : M A := λ w, (Raise e, w).

(** A pure computation that may raise, run as a statement. *)
Definition lift {A} (r : result A) : M A := λ w, (r, w).

(** [d[k]] *)
Definition getitem (d : gmap string string) (k : string) : M string :=
  match d !! k with
  | Some v => mret v
  | None => raise (KeyError k)
  end.

(** [fig.add_trace(t)]. A reference comes from [new_figure] and figures
    are never removed, so it is always in the store; [alter] leaves the
    store alone on any other position. *)
Definition add_trace (fig : nat) (t : Scatter) : M unit := λ w,
  (Ok tt, mkWorld (alter (with_trace t) fig (figures w)) (displayed w)).

(** [fig.update_layout(...)] *)
Definition update_layout (fig : nat) (kw : LayoutKw) : M unit := λ w,
  (Ok tt, mkWorld (alter (with_layout kw) fig (figures w)) (displayed w)).

(** [fig.show()] *)
Definition show (fig : nat) : M unit := λ w,
  (Ok tt,
   mkWorld (figures w)
           (displayed w ++ match figures w !! fig with
                           | Some f => [f]
                           | None => []
                           end)).

(** ** The constants of src/ts_plotting.py *)

Definition mode_error : exn :=
  ValueError "Invalid value for test_data_mode. Choose 'markers' or 'lines'.".

Definition default_colors : gmap string string :=
  <["training" := "#0072B2"]>
    (<["test" := "#000000"]>
       (<["forecast" := "#FF0000"]> ∅)).

(** The keywords of the [update_layout] call, lines 110 to 126. *)
Definition layout_kw (y_axis_label : string) : LayoutKw :=
  mkLayoutKw
    (Some "Univariate Time Series Visualization")
    (mkXAxis (Some true) (Some "across") (Some "cursor") (Some "dot")
             (Some (3 # 2)%Q) (Some "gray") None)
    (mkYAxis (Some false) None)
    (Some "x")
    (Some "plotly_white")
    (Some "Date")
    (Some y_axis_label)
    (mkLegend (Some "h") (Some "bottom") (Some (51 # 50)%Q)
              (Some "right") (Some 1%Q)).

(** Lines 53 to 58: the whole mapping is replaced, and only when the
    caller passed [None]. *)
Definition resolve_colors (color_dict : option (gmap string string))
    : gmap string string :=
  match color_dict with
  | None => default_colors
  | Some d => d
  end.

(** ** Vocabulary of the statements *)

(** The colours a trace carries: that of its marker, then that of its
    line, for those it has. *)
Definition trace_colors (t : Scatter) : list string :=
  match marker t with Some mk => [marker_color mk] | None => [] end ++
  match line t with Some ln => [line_color ln] | None => [] end.

(** The key of [color_dict] each block reads, with the name it gives to
    its trace. *)
Definition roles : list (string * string) :=
  [("training", "Training Data");
   ("test", "Test Data");
   ("forecast", "Point Forecast")].

Definition has_column (df : DataFrame) : Prop := columns df ≠ [].

(** A trace is coloured by a mapping when its one colour is the value
    the mapping has under the key of the trace's role. *)
Definition colored_by (colors : gmap string string) (t : Scatter) : Prop :=
  ∃ role c, (role, name t) ∈ roles ∧ colors !! role = Some c ∧
            trace_colors t = [c].

(** A role whose trace the call has to build. *)
Definition needs (te fc : option DataFrame) (role : string) : Prop :=
  role = "training" ∨ (is_Some te ∧ role = "test") ∨
  (is_Some fc ∧ role = "forecast").

(** The frames a call reads, in the order it reads them. *)
Definition frames (training_data : DataFrame)
    (test_data forecast : option DataFrame) : list DataFrame :=
  training_data :: option_list test_data ++ option_list forecast.

(** Two frames with the same index and the same first column; the other
    columns may differ. *)
Definition same_series (df df' : DataFrame) : Prop :=
  index df = index df' ∧ head (columns df) = head (columns df').

(** An optional frame gives an optional trace. *)
Definition optional {X} (f : X → result Scatter) (o : option X)
    : result (list Scatter) :=
  match o with
  | None => Ok []
  | Some v => match f v with Ok t => Ok [t] | Raise e => Raise e end
  end.

(** ** Sample data *)

Definition df_train : DataFrame :=
  mkDataFrame [1; 2; 3]%Z [[(10 # 1)%Q; (11 # 1)%Q; (25 # 2)%Q]].
Definition df_test : DataFrame :=
  mkDataFrame [4; 5]%Z [[(13 # 1)%Q; (27 # 2)%Q]].
Definition df_fc : DataFrame :=
  mkDataFrame [4; 5]%Z [[(14 # 1)%Q; (14 # 1)%Q]].
Definition df_nocol : DataFrame := mkDataFrame [1; 2]%Z [].
Definition df_train_wide : DataFrame :=
  mkDataFrame [1; 2; 3]%Z
              [[(10 # 1)%Q; (11 # 1)%Q; (25 # 2)%Q];
               [(0 # 1)%Q; (0 # 1)%Q; (0 # 1)%Q]].
Definition w0 : World := mkWorld [] [].

(** Mappings: one key, one key and a key no block reads, two keys, and
    one key under which the string is no colour. *)
Definition colors_plain : gmap string string :=
  <["training" := "green"]> ∅.
Definition colors_extra : gmap string string :=
  <["training" := "green"]> (<["background" := "white"]> ∅).
Definition colors_two : gmap string string :=
  <["training" := "green"]> (<["test" := "orange"]> ∅).
Definition colors_bogus : gmap string string :=
  <["training" := "bogus"]> ∅.

(** A Plotly to run the samples with: of the colour names it knows these
    few, its message is cut short, and its default template is the one
    of a fresh installation. *)
Definition sample_accepts (c : string) : bool :=
  bool_decide (c ∈ ["green"; "orange"; "white"; "red"; "black"; "blue"]).
Definition sample_color_error (owner c : string) : string :=
  "Invalid value received for the 'color' property of " +:+ owner +:+
  ": '" +:+ c +:+ "'".
Definition sample_template : option string := Some "plotly".

(** ** src/ts_plotting.py *)

Section Plot.

(** What Plotly takes as a colour besides the hexadecimal notation:
    names, [rgb(...)] and the like. *)
Variable plotly_accepts : string → bool.

(** The text of the ValueError Plotly raises for a string that is no
    colour, given the object the colour is for and the string. *)
Variable color_error : string → string → string.

(** [plotly.io.templates.default] *)
Variable default_template : option string.

Definition valid_color (c : string) : bool :=
  hex_color c || plotly_accepts c.

Definition check_color (owner c : string) : result unit :=
  if valid_color c then Ok tt
  else Raise (ValueError (color_error owner c)).

(** [go.Scatter(x=, y=, mode=, name=, marker=, line=)]: the colours of
    the line and of the marker are checked, then the trace is built. *)
Definition go_Scatter (xs : list Z) (ys : list Q) (mode name : string)
    (marker : option Marker) (line : option Line) : result Scatter :=
  match match line with
        | Some ln => check_color "scatter.line" (line_color ln)
        | None => Ok tt
        end with
  | Raise e => Raise e
  | Ok _ =>
      match match marker with
            | Some mk => check_color "scatter.marker" (marker_color mk)
            | None => Ok tt
            end with
      | Raise e => Raise e
      | Ok _ => Ok (mkScatter xs ys mode name marker line)
      end
  end.

(** The layout of a figure nothing was done to yet. *)
Definition empty_layout : Layout :=
  mkLayout None
           (mkXAxis None None None None None None None)
           (mkYAxis None None)
           None default_template
           (mkLegend None None None None None).

Definition empty_figure : Figure := mkFigure [] empty_layout.

(** [go.Figure()]: a new figure object, without traces. *)
Definition new_figure : M nat := λ w,
  (Ok (List.length (figures w)),
   mkWorld (figures w ++ [empty_figure]) (displayed w)).

(** Lines 64 to 72. Keyword arguments are evaluated left to right, then
    the constructor runs: the column is read, then the colour is looked
    up, then it is checked. *)
Definition add_training (fig : nat) (training_data : DataFrame)
    (color_dict : gmap string string) : M unit :=
  xs ← mret (index training_data);
  ys ← lift (iloc_col0 training_data);
  c ← getitem color_dict "training";
  t ← lift (go_Scatter xs ys "lines" "Training Data"
                       None (Some (mkLine c None)));
  add_trace fig t.

(** Lines 75 to 93. *)
Definition add_test (fig : nat) (test_data : option DataFrame)
    (test_data_mode : string) (color_dict : gmap string string) : M unit :=
  match test_data with
  | Some td =>
      xs ← mret (index td);
      ys ← lift (iloc_col0 td);
      mk ← (if decide (test_data_mode = "markers")
            then c ← getitem color_dict "test";
                 mret (Some (mkMarker c (Some 6%Z)))
            else mret None);
      ln ← (if decide (test_data_mode = "lines")
            then c ← getitem color_dict "test";
                 mret (Some (mkLine c None))
            else mret None);
      t ← lift (go_Scatter xs ys test_data_mode "Test Data" mk ln);
      add_trace fig t
  | None => mret tt
  end.

(** Lines 96 to 107. *)
Definition add_forecast (fig : nat) (forecast : option DataFrame)
    (color_dict : gmap string string) : M unit :=
  match forecast with
  | Some fc =>
      xs ← mret (index fc);
      ys ← lift (iloc_col0 fc);
      c ← getitem color_dict "forecast";
      t ← lift (go_Scatter xs ys "lines" "Point Forecast"
                           None (Some (mkLine c (Some "dash"))));
      add_trace fig t
  | None => mret tt
  end.

Definition plot_time_series
    (training_data : DataFrame)
    (test_data : option DataFrame)
    (forecast : option DataFrame)
    (test_data_mode : string)
    (y_axis_label : string)
    (color_dict : option (gmap string string)) : M unit :=
  if decide (test_data_mode ∉ ["markers"; "lines"])
  then raise mode_error
  else
    let color_dict := resolve_colors color_dict in
    fig ← new_figure;
    add_training fig training_data color_dict;;
    add_test fig test_data test_data_mode color_dict;;
    add_forecast fig forecast color_dict;;
    update_layout fig (layout_kw y_axis_label);;
    show fig.

(** The call [plot_time_series(training_data)]: every other parameter at
    the default of the signature, lines 9 to 16. *)
Definition plot_time_series_defaults (training_data : DataFrame) : M unit :=
  plot_time_series training_data None None "markers" "Value" None.

(** ** The traces as values

    What each of the three blocks computes before it calls [add_trace]:
    the trace, or the exception raised on the way. *)

Definition training_trace (training_data : DataFrame)
    (colors : gmap string string) : result Scatter :=
  match iloc_col0 training_data with
  | Raise e => Raise e
  | Ok ys =>
      match colors !! "training" with
      | None => Raise (KeyError "training")
      | Some c => go_Scatter (index training_data) ys "lines"
                             "Training Data" None (Some (mkLine c None))
      end
  end.

Definition test_trace (td : DataFrame) (test_data_mode : string)
    (colors : gmap string string) : result Scatter :=
  match iloc_col0 td with
  | Raise e => Raise e
  | Ok ys =>
      if decide (test_data_mode = "markers") then
        match colors !! "test" with
        | None => Raise (KeyError "test")
        | Some c => go_Scatter (index td) ys test_data_mode "Test Data"
                               (Some (mkMarker c (Some 6%Z))) None
        end
      else if decide (test_data_mode = "lines") then
        match colors !! "test" with
        | None => Raise (KeyError "test")
        | Some c => go_Scatter (index td) ys test_data_mode "Test Data"
                               None (Some (mkLine c None))
        end
      else go_Scatter (index td) ys test_data_mode "Test Data" None None
  end.

Definition forecast_trace (fc : DataFrame)
    (colors : gmap string string) : result Scatter :=
  match iloc_col0 fc with
  | Raise e => Raise e
  | Ok ys =>
      match colors !! "forecast" with
      | None => Raise (KeyError "forecast")
      | Some c => go_Scatter (index fc) ys "lines" "Point Forecast"
                             None (Some (mkLine c (Some "dash")))
      end
  end.

(** The traces added to the figure, in order, and the exception that
    stopped the construction, if one did. *)
Definition build (training_data : DataFrame)
    (test_data forecast : option DataFrame) (test_data_mode : string)
    (colors : gmap string string) : list Scatter * option exn :=
  match training_trace training_data colors with
  | Raise e => ([], Some e)
  | Ok t1 =>
      match optional (λ td, test_trace td test_data_mode colors) test_data with
      | Raise e => ([t1], Some e)
      | Ok t2 =>
          match optional (λ fc, forecast_trace fc colors) forecast with
          | Raise e => (t1 :: t2, Some e)
          | Ok t3 => (t1 :: t2 ++ t3, None)
          end
      end
  end.

(** The figure a completed call shows. *)
Definition final_figure (ts : list Scatter) (y_axis_label : string) : Figure :=
  mkFigure ts (apply_layout (layout_kw y_axis_label) empty_layout).

(** The mapping has a colour for the role, and Plotly takes it. *)
Definition accepted (colors : gmap string string) (role : string) : Prop :=
  ∃ c, colors !! role = Some c ∧ valid_color c = true.

(** What stops a block: a frame without a column, a key the mapping
    lacks, or a colour Plotly does not take. *)
Definition stops (colors : gmap string string) (df : DataFrame)
    (role : string) (e : exn) : Prop :=
  (e = IndexError "single positional indexer is out-of-bounds" ∧
   columns df = []) ∨
  (e = KeyError role ∧ colors !! role = None) ∨
  (∃ owner c, e = ValueError (color_error owner c) ∧
              colors !! role = Some c ∧ valid_color c = false).

(** ** Running the statements *)

Lemma run_ret {A} (a : A) (w : World) : run (mret a) w = (Ok a, w).
Proof. reflexivity. Qed.

Lemma run_raise {A} (e : exn) (w : World) :
  run (raise (A := A) e) w = (Raise e, w).
Proof. reflexivity. Qed.

Lemma run_lift {A} (r : result A) (w : World) : run (lift r) w = (r, w).
Proof. reflexivity. Qed.

Lemma run_bind {A B} (m : M A) (f : A → M B) (w : World) :
  run (m ≫= f) w =
  match run m w with
  | (Ok a, w') => run (f a) w'
  | (Raise e, w') => (Raise e, w')
  end.
Proof. reflexivity. Qed.

(** One step of symbolic execution: push [run] through the binds that
    are ready to fire. *)
Ltac run_step :=
  repeat (rewrite run_bind || rewrite run_ret || rewrite run_raise
          || rewrite run_lift);
  cbv beta iota.

(** The figure [plot_time_series] works on is the one it has just
    created: the last one of the store. *)
Lemma alter_last {A} (g : A → A) (l : list A) (a : A) :
  alter g (List.length l) (l ++ [a]) = l ++ [g a].
Proof.
  rewrite alter_app_r_alt by lia.
  by rewrite Nat.sub_diag.
Qed.

Lemma lookup_last {A} (l : list A) (a : A) : (l ++ [a]) !! List.length l = Some a.
Proof. apply (list_lookup_middle l [] a). reflexivity. Qed.

(** *** The constructor *)

Lemma go_Scatter_line xs ys m n ln :
  go_Scatter xs ys m n None (Some ln) =
  if valid_color (line_color ln) then Ok (mkScatter xs ys m n None (Some ln))
  else Raise (ValueError (color_error "scatter.line" (line_color ln))).
Proof.
  unfold go_Scatter, check_color. by destruct (valid_color (line_color ln)).
Qed.

Lemma go_Scatter_marker xs ys m n mk :
  go_Scatter xs ys m n (Some mk) None =
  if valid_color (marker_color mk)
  then Ok (mkScatter xs ys m n (Some mk) None)
  else Raise (ValueError (color_error "scatter.marker" (marker_color mk))).
Proof.
  unfold go_Scatter, check_color. by destruct (valid_color (marker_color mk)).
Qed.

Lemma go_Scatter_plain xs ys m n :
  go_Scatter xs ys m n None None = Ok (mkScatter xs ys m n None None).
Proof. reflexivity. Qed.

Lemma hex_defaults :
  valid_color "#0072B2" = true ∧ valid_color "#000000" = true ∧
  valid_color "#FF0000" = true.
Proof. by repeat split. Qed.

(** *** The three blocks *)

Lemma add_training_run fig tr colors w :
  run (add_training fig tr colors) w =
  match training_trace tr colors with
  | Ok t => run (add_trace fig t) w
  | Raise e => (Raise e, w)
  end.
Proof.
  unfold add_training, training_trace, getitem. run_step.
  destruct (iloc_col0 tr) as [ys|e]; [|done]. run_step.
  destruct (colors !! "training") as [c|]; [|done]. run_step.
  by destruct (go_Scatter _ _ _ _ _ _).
Qed.

Lemma add_test_run fig te m colors w :
  run (add_test fig te m colors) w =
  match optional (λ td, test_trace td m colors) te with
  | Ok ts => (Ok tt, mkWorld (foldl (λ h t, alter (with_trace t) fig h)
                                    (figures w) ts) (displayed w))
  | Raise e => (Raise e, w)
  end.
Proof.
  destruct te as [td|]; [|by destruct w].
  unfold add_test, optional, test_trace, getitem. run_step.
  destruct (iloc_col0 td) as [ys|e]; [|done]. run_step.
  destruct (decide (m = "markers")) as [->|Hm].
  - destruct (colors !! "test") as [c|]; [|done]. run_step.
    rewrite decide_False by done. run_step.
    by destruct (go_Scatter _ _ _ _ _ _).
  - run_step. destruct (decide (m = "lines")) as [->|Hl].
    + destruct (colors !! "test") as [c|]; [|done]. run_step.
      by destruct (go_Scatter _ _ _ _ _ _).
    + run_step. by destruct (go_Scatter _ _ _ _ _ _).
Qed.

Lemma add_forecast_run fig fc colors w :
  run (add_forecast fig fc colors) w =
  match optional (λ f, forecast_trace f colors) fc with
  | Ok ts => (Ok tt, mkWorld (foldl (λ h t, alter (with_trace t) fig h)
                                    (figures w) ts) (displayed w))
  | Raise e => (Raise e, w)
  end.
Proof.
  destruct fc as [f|]; [|by destruct w].
  unfold add_forecast, optional, forecast_trace, getitem. run_step.
  destruct (iloc_col0 f) as [ys|e]; [|done]. run_step.
  destruct (colors !! "forecast") as [c|]; [|done]. run_step.
  by destruct (go_Scatter _ _ _ _ _ _).
Qed.

(** Every call with a valid mode, run to its end or to its exception. *)
Lemma plot_time_series_run tr te fc m yl cd w :
  m ∈ ["markers"; "lines"] →
  run (plot_time_series tr te fc m yl cd) w =
  match build tr te fc m (resolve_colors cd) with
  | (ts, None) =>
      (Ok tt, mkWorld (figures w ++ [final_figure ts yl])
                      (displayed w ++ [final_figure ts yl]))
  | (ts, Some e) =>
      (Raise e, mkWorld (figures w ++ [mkFigure ts empty_layout])
                        (displayed w))
  end.
Proof.
  intros Hm. unfold plot_time_series, build.
  rewrite decide_False by (by intros ?).
  cbv zeta. rewrite run_bind. unfold new_figure at 1, run at 1.
  rewrite run_bind, add_training_run.
  destruct (training_trace tr (resolve_colors cd)) as [t1|e]; [|done].
  unfold add_trace at 1, run at 1. cbn [figures displayed].
  rewrite alter_last.
  rewrite run_bind, add_test_run.
  destruct (optional _ te) as [t2|e]; [|done].
  cbn [figures displayed].
  assert (Hfold : ∀ ts f, foldl (λ h t, alter (with_trace t) (List.length (figures w)) h)
                     (figures w ++ [f]) ts
                   = figures w ++ [mkFigure (data f ++ ts) (layout f)]).
  { induction ts as [|t ts IH]; intros f; simpl.
    - rewrite app_nil_r. by destruct f.
    - rewrite alter_last, IH. unfold with_trace. simpl.
      by rewrite <- app_assoc. }
  rewrite Hfold.
  rewrite run_bind, add_forecast_run.
  destruct (optional _ fc) as [t3|e]; [|done].
  cbn [figures displayed]. rewrite Hfold.
  rewrite run_bind. unfold update_layout at 1, run at 1.
  cbn [figures displayed]. rewrite alter_last.
  unfold show, run. cbn [figures displayed].
  rewrite lookup_last. unfold with_layout, final_figure. simpl.
  reflexivity.
Qed.

(** ** What a run can be *)

Lemma mode_valid_iff (m : string) :
  m ∈ ["markers"; "lines"] ↔ m = "markers" ∨ m = "lines".
Proof.
  rewrite !elem_of_cons, elem_of_nil. tauto.
Qed.

Lemma plot_time_series_invalid tr te fc m yl cd w :
  m ∉ ["markers"; "lines"] →
  run (plot_time_series tr te fc m yl cd) w = (Raise mode_error, w).
Proof.
  intros Hm. unfold plot_time_series.
  by rewrite decide_True.
Qed.

Lemma iloc_col0_ok df : has_column df → ∃ ys, iloc_col0 df = Ok ys.
Proof.
  unfold has_column, iloc_col0. destruct (columns df); [done | eauto].
Qed.

Lemma iloc_col0_ok_inv df ys : iloc_col0 df = Ok ys → has_column df.
Proof.
  unfold has_column, iloc_col0. by destruct (columns df).
Qed.

Lemma training_trace_inv tr colors t :
  training_trace tr colors = Ok t →
  ∃ ys c, iloc_col0 tr = Ok ys ∧ colors !! "training" = Some c ∧
          valid_color c = true ∧
          t = mkScatter (index tr) ys "lines" "Training Data"
                        None (Some (mkLine c None)).
Proof.
  unfold training_trace. intros H.
  destruct (iloc_col0 tr) as [ys|]; [|done].
  destruct (colors !! "training") as [c|]; [|done].
  rewrite go_Scatter_line in H. simpl in H.
  destruct (valid_color c) eqn:Hv; [|done].
  exists ys, c. by simplify_eq.
Qed.

Lemma test_trace_markers_inv td colors t :
  test_trace td "markers" colors = Ok t →
  ∃ ys c, iloc_col0 td = Ok ys ∧ colors !! "test" = Some c ∧
          valid_color c = true ∧
          t = mkScatter (index td) ys "markers" "Test Data"
                        (Some (mkMarker c (Some 6%Z))) None.
Proof.
  unfold test_trace. intros H.
  destruct (iloc_col0 td) as [ys|]; [|done].
  rewrite decide_True in H by done.
  destruct (colors !! "test") as [c|]; [|done].
  rewrite go_Scatter_marker in H. simpl in H.
  destruct (valid_color c) eqn:Hv; [|done].
  exists ys, c. by simplify_eq.
Qed.

Lemma test_trace_lines_inv td colors t :
  test_trace td "lines" colors = Ok t →
  ∃ ys c, iloc_col0 td = Ok ys ∧ colors !! "test" = Some c ∧
          valid_color c = true ∧
          t = mkScatter (index td) ys "lines" "Test Data"
                        None (Some (mkLine c None)).
Proof.
  unfold test_trace. intros H.
  destruct (iloc_col0 td) as [ys|]; [|done].
  rewrite decide_False, decide_True in H by done.
  destruct (colors !! "test") as [c|]; [|done].
  rewrite go_Scatter_line in H. simpl in H.
  destruct (valid_color c) eqn:Hv; [|done].
  exists ys, c. by simplify_eq.
Qed.

Lemma forecast_trace_inv fc colors t :
  forecast_trace fc colors = Ok t →
  ∃ ys c, iloc_col0 fc = Ok ys ∧ colors !! "forecast" = Some c ∧
          valid_color c = true ∧
          t = mkScatter (index fc) ys "lines" "Point Forecast"
                        None (Some (mkLine c (Some "dash"))).
Proof.
  unfold forecast_trace. intros H.
  destruct (iloc_col0 fc) as [ys|]; [|done].
  destruct (colors !! "forecast") as [c|]; [|done].
  rewrite go_Scatter_line in H. simpl in H.
  destruct (valid_color c) eqn:Hv; [|done].
  exists ys, c. by simplify_eq.
Qed.

(** The other way round: a column and a colour Plotly takes give the
    trace. *)
Lemma training_trace_ok tr colors ys c :
  iloc_col0 tr = Ok ys → colors !! "training" = Some c →
  valid_color c = true →
  training_trace tr colors =
  Ok (mkScatter (index tr) ys "lines" "Training Data"
                None (Some (mkLine c None))).
Proof.
  intros Hy Hc Hv. unfold training_trace.
  rewrite Hy, Hc, go_Scatter_line. simpl. by rewrite Hv.
Qed.

Lemma test_trace_ok td m colors :
  m ∈ ["markers"; "lines"] → has_column td → accepted colors "test" →
  ∃ t, test_trace td m colors = Ok t.
Proof.
  intros Hm [ys Hy]%iloc_col0_ok (c & Hc & Hv). unfold test_trace.
  rewrite Hy, Hc.
  apply mode_valid_iff in Hm as [->| ->].
  - rewrite decide_True by done. rewrite go_Scatter_marker. simpl.
    rewrite Hv. by eexists.
  - rewrite decide_False, decide_True by done. rewrite go_Scatter_line.
    simpl. rewrite Hv. by eexists.
Qed.

Lemma forecast_trace_ok fc colors :
  has_column fc → accepted colors "forecast" →
  ∃ t, forecast_trace fc colors = Ok t.
Proof.
  intros [ys Hy]%iloc_col0_ok (c & Hc & Hv). unfold forecast_trace.
  rewrite Hy, Hc, go_Scatter_line. simpl. rewrite Hv. by eexists.
Qed.

Lemma optional_inv {X} (f : X → result Scatter) (o : option X) ts :
  optional f o = Ok ts →
  (o = None ∧ ts = []) ∨ (∃ v t, o = Some v ∧ f v = Ok t ∧ ts = [t]).
Proof.
  destruct o as [v|]; simpl; intros H.
  - right. destruct (f v) as [t|] eqn:E; [|done].
    exists v, t. by simplify_eq.
  - left. by simplify_eq.
Qed.

(** A call that returns has passed the mode check, built every trace it
    was asked for, and shown the figure it built. *)
Lemma plot_time_series_ok_inv tr te fc m yl cd w w' :
  run (plot_time_series tr te fc m yl cd) w = (Ok tt, w') →
  m ∈ ["markers"; "lines"] ∧
  ∃ t1 t2 t3,
    training_trace tr (resolve_colors cd) = Ok t1 ∧
    optional (λ td, test_trace td m (resolve_colors cd)) te = Ok t2 ∧
    optional (λ f, forecast_trace f (resolve_colors cd)) fc = Ok t3 ∧
    w' = mkWorld (figures w ++ [final_figure (t1 :: t2 ++ t3) yl])
                 (displayed w ++ [final_figure (t1 :: t2 ++ t3) yl]).
Proof.
  intros H. destruct (decide (m ∈ ["markers"; "lines"])) as [Hm|Hm].
  - split; [done|]. rewrite plot_time_series_run in H by done.
    unfold build in H.
    destruct (training_trace _ _) as [t1|]; [|done].
    destruct (optional _ te) as [t2|]; [|done].
    destruct (optional _ fc) as [t3|]; [|done].
    exists t1, t2, t3. by simplify_eq.
  - by rewrite plot_time_series_invalid in H.
Qed.

Lemma plot_time_series_ok tr te fc m yl cd w t1 t2 t3 :
  m ∈ ["markers"; "lines"] →
  training_trace tr (resolve_colors cd) = Ok t1 →
  optional (λ td, test_trace td m (resolve_colors cd)) te = Ok t2 →
  optional (λ f, forecast_trace f (resolve_colors cd)) fc = Ok t3 →
  run (plot_time_series tr te fc m yl cd) w =
  (Ok tt, mkWorld (figures w ++ [final_figure (t1 :: t2 ++ t3) yl])
                  (displayed w ++ [final_figure (t1 :: t2 ++ t3) yl])).
Proof.
  intros Hm H1 H2 H3. rewrite plot_time_series_run by done.
  unfold build. by rewrite H1, H2, H3.
Qed.

(** The call returns as soon as the mode is valid, every frame passed
    has a column and every colour asked for is in the mapping and is a
    colour for Plotly. *)
Theorem plot_time_series_completes tr te fc m yl cd w :
  m ∈ ["markers"; "lines"] →
  (∀ df, df ∈ frames tr te fc → has_column df) →
  (∀ role, needs te fc role → accepted (resolve_colors cd) role) →
  ∃ w', run (plot_time_series tr te fc m yl cd) w = (Ok tt, w').
Proof.
  intros Hm Hcol Hkey.
  destruct (iloc_col0_ok tr) as [ys1 Hys1]; [apply Hcol; by left|].
  destruct (Hkey "training") as (c1 & Hc1 & Hv1); [by left|].
  assert (∃ t2, optional (λ td, test_trace td m (resolve_colors cd)) te = Ok t2)
    as [t2 Ht2].
  { destruct te as [td|]; [|by eexists].
    destruct (test_trace_ok td m (resolve_colors cd) Hm) as [t Ht].
    - apply Hcol. right; by left.
    - apply Hkey. right; left. split; [by eexists|done].
    - simpl. rewrite Ht. by eexists. }
  assert (∃ t3, optional (λ f, forecast_trace f (resolve_colors cd)) fc = Ok t3)
    as [t3 Ht3].
  { destruct fc as [f|]; [|by eexists].
    destruct (forecast_trace_ok f (resolve_colors cd)) as [t Ht].
    - apply Hcol. unfold frames. apply elem_of_cons. right.
      apply elem_of_app. right. by left.
    - apply Hkey. right; right. split; [by eexists|done].
    - simpl. rewrite Ht. by eexists. }
  eexists. eapply plot_time_series_ok; [done| |done|done].
  by apply training_trace_ok.
Qed.

(** The conditions under which a call returns. *)
Lemma plot_time_series_completes_iff tr te fc m yl cd w :
  (∃ w', run (plot_time_series tr te fc m yl cd) w = (Ok tt, w')) ↔
  m ∈ ["markers"; "lines"] ∧
  (∀ df, df ∈ frames tr te fc → has_column df) ∧
  (∀ role, needs te fc role → accepted (resolve_colors cd) role).
Proof.
  split; [|intros (Hm & Hcol & Hkey); by apply plot_time_series_completes].
  intros [w' H]. apply plot_time_series_ok_inv in H
    as (Hm & t1 & t2 & t3 & H1 & H2 & H3 & _).
  split; [done|].
  apply training_trace_inv in H1 as (ys1 & c1 & Hy1 & Hc1 & Hv1 & _).
  assert (∀ td, te = Some td →
            has_column td ∧ accepted (resolve_colors cd) "test") as Hte.
  { intros td ->.
    apply optional_inv in H2 as [[? _]|(v & t & ? & Ht & _)]; [done|].
    simplify_eq. apply mode_valid_iff in Hm as [->| ->].
    - apply test_trace_markers_inv in Ht as (ys & c & Hy & Hc & Hv & _).
      split; [by eapply iloc_col0_ok_inv | by exists c].
    - apply test_trace_lines_inv in Ht as (ys & c & Hy & Hc & Hv & _).
      split; [by eapply iloc_col0_ok_inv | by exists c]. }
  assert (∀ f, fc = Some f →
            has_column f ∧ accepted (resolve_colors cd) "forecast") as Hfc.
  { intros f ->.
    apply optional_inv in H3 as [[? _]|(v & t & ? & Ht & _)]; [done|].
    simplify_eq.
    apply forecast_trace_inv in Ht as (ys & c & Hy & Hc & Hv & _).
    split; [by eapply iloc_col0_ok_inv | by exists c]. }
  split.
  - intros df Hdf. unfold frames in Hdf.
    apply elem_of_cons in Hdf as [->|Hdf]; [by eapply iloc_col0_ok_inv|].
    apply elem_of_app in Hdf as [Hdf|Hdf].
    + destruct te as [td|]; simpl in Hdf; [|by apply elem_of_nil in Hdf].
      apply list_elem_of_singleton in Hdf as ->. by apply (Hte td).
    + destruct fc as [f|]; simpl in Hdf; [|by apply elem_of_nil in Hdf].
      apply list_elem_of_singleton in Hdf as ->. by apply (Hfc f).
  - intros role [->|[[[td ->] ->]|[[f ->] ->]]].
    + by exists c1.
    + by apply (Hte td).
    + by apply (Hfc f).
Qed.

(** With the default mapping every colour is there and is a colour for
    Plotly. *)
Lemma default_colors_accepted role :
  role ∈ ["training"; "test"; "forecast"] → accepted default_colors role.
Proof.
  intros Hr.
  repeat (apply elem_of_cons in Hr as [->|Hr]; [by eexists|]).
  by apply elem_of_nil in Hr.
Qed.

Lemma needs_role te fc role :
  needs te fc role → role ∈ ["training"; "test"; "forecast"].
Proof.
  intros [->|[[_ ->]|[_ ->]]].
  - by left.
  - right; by left.
  - right; right; by left.
Qed.

(** *** Colours *)

Lemma training_trace_colored tr colors t :
  training_trace tr colors = Ok t →
  name t = "Training Data" ∧ colored_by colors t.
Proof.
  intros (ys & c & _ & Hc & _ & ->)%training_trace_inv. split; [done|].
  exists "training", c. repeat split; [|done]. by left.
Qed.

Lemma test_trace_colored td m colors t :
  m ∈ ["markers"; "lines"] →
  test_trace td m colors = Ok t →
  name t = "Test Data" ∧ colored_by colors t.
Proof.
  intros [->| ->]%mode_valid_iff Ht.
  - apply test_trace_markers_inv in Ht as (ys & c & _ & Hc & _ & ->).
    split; [done|]. exists "test", c. repeat split; [|done]. right; by left.
  - apply test_trace_lines_inv in Ht as (ys & c & _ & Hc & _ & ->).
    split; [done|]. exists "test", c. repeat split; [|done]. right; by left.
Qed.

Lemma forecast_trace_colored fc colors t :
  forecast_trace fc colors = Ok t →
  name t = "Point Forecast" ∧ colored_by colors t.
Proof.
  intros (ys & c & _ & Hc & _ & ->)%forecast_trace_inv. split; [done|].
  exists "forecast", c. repeat split; [|done]. right; right; by left.
Qed.

(** The traces of a completed call: their names in order, and the
    mapping that colours each of them. *)
Lemma built_traces tr te fc m colors t1 t2 t3 :
  m ∈ ["markers"; "lines"] →
  training_trace tr colors = Ok t1 →
  optional (λ td, test_trace td m colors) te = Ok t2 →
  optional (λ f, forecast_trace f colors) fc = Ok t3 →
  name <$> (t1 :: t2 ++ t3) =
    ["Training Data"] ++
    match te with Some _ => ["Test Data"] | None => [] end ++
    match fc with Some _ => ["Point Forecast"] | None => [] end ∧
  ∀ t, t ∈ t1 :: t2 ++ t3 → colored_by colors t.
Proof.
  intros Hm [N1 K1]%training_trace_colored H2 H3.
  apply optional_inv in H2 as [[-> ->]|(v2 & u2 & -> & Hu2 & ->)];
    apply optional_inv in H3 as [[-> ->]|(v3 & u3 & -> & Hu3 & ->)];
    try (apply (test_trace_colored _ _ _ _ Hm) in Hu2 as [N2 K2]);
    try (apply forecast_trace_colored in Hu3 as [N3 K3]);
    (split; [simpl; congruence|]);
    intros t Ht; simpl in Ht;
    repeat (apply elem_of_cons in Ht as [->|Ht]; [done|]);
    by apply elem_of_nil in Ht.
Qed.

(** A trace coloured by the default mapping carries the default of its
    role. *)
Lemma colored_by_default t :
  colored_by default_colors t →
  (name t, trace_colors t) ∈ [("Training Data", ["#0072B2"]);
                              ("Test Data", ["#000000"]);
                              ("Point Forecast", ["#FF0000"])].
Proof.
  intros (role & c & Hr & Hl & ->). unfold roles in Hr.
  repeat (apply elem_of_cons in Hr as [Hr|Hr];
          [injection Hr as -> ->; vm_compute in Hl; injection Hl as <-|]).
  - by left.
  - right; by left.
  - right; right; by left.
  - by apply elem_of_nil in Hr.
Qed.

(** *** Calls that stop *)

Lemma build_ok_inv tr te fc m colors ts :
  build tr te fc m colors = (ts, None) →
  ∃ t1 t2 t3,
    training_trace tr colors = Ok t1 ∧
    optional (λ td, test_trace td m colors) te = Ok t2 ∧
    optional (λ f, forecast_trace f colors) fc = Ok t3 ∧
    ts = t1 :: t2 ++ t3.
Proof.
  unfold build. intros H.
  destruct (training_trace _ _) as [t1|]; [|done].
  destruct (optional _ te) as [t2|]; [|done].
  destruct (optional _ fc) as [t3|]; [|done].
  exists t1, t2, t3. by simplify_eq.
Qed.

Lemma build_missing_key tr te fc m colors role :
  m ∈ ["markers"; "lines"] →
  needs te fc role → colors !! role = None →
  ∃ ts e, build tr te fc m colors = (ts, Some e).
Proof.
  intros Hm Hneed Hnone.
  destruct (build tr te fc m colors) as [ts [e|]] eqn:Hb; [by eauto|].
  exfalso.
  apply build_ok_inv in Hb as (t1 & t2 & t3 & H1 & H2 & H3 & _).
  destruct Hneed as [->|[[[td ->] ->]|[[f ->] ->]]].
  - apply training_trace_inv in H1 as (? & ? & _ & ? & _). congruence.
  - apply optional_inv in H2 as [[? _]|(v & t & ? & Ht & _)]; [done|].
    apply mode_valid_iff in Hm as [->| ->].
    + apply test_trace_markers_inv in Ht as (? & ? & _ & ? & _). congruence.
    + apply test_trace_lines_inv in Ht as (? & ? & _ & ? & _). congruence.
  - apply optional_inv in H3 as [[? _]|(v & t & ? & Ht & _)]; [done|].
    apply forecast_trace_inv in Ht as (? & ? & _ & ? & _). congruence.
Qed.

(** A call that lacks a colour it needs raises, and shows nothing. *)
Lemma missing_key_no_display tr te fc m yl d w role :
  needs te fc role → d !! role = None →
  ∃ e w', run (plot_time_series tr te fc m yl (Some d)) w = (Raise e, w') ∧
          displayed w' = displayed w.
Proof.
  intros Hneed Hnone.
  destruct (decide (m ∈ ["markers"; "lines"])) as [Hm|Hm].
  - destruct (build_missing_key tr te fc m d role Hm Hneed Hnone)
      as (ts & e & Hb).
    rewrite plot_time_series_run by done. simpl. rewrite Hb. by eexists _, _.
  - rewrite plot_time_series_invalid by done. by eexists _, _.
Qed.

Lemma training_trace_raise tr colors e :
  training_trace tr colors = Raise e → stops colors tr "training" e.
Proof.
  unfold training_trace, iloc_col0, stops.
  destruct (columns tr); [intros H; simplify_eq; by left|].
  destruct (colors !! "training") as [c|] eqn:E;
    [|intros H; simplify_eq; right; by left].
  rewrite go_Scatter_line. simpl.
  destruct (valid_color c) eqn:Hv; intros H; simplify_eq.
  right; right. by exists "scatter.line", c.
Qed.

Lemma test_trace_raise td m colors e :
  test_trace td m colors = Raise e → stops colors td "test" e.
Proof.
  unfold test_trace, iloc_col0, stops.
  destruct (columns td); [intros H; simplify_eq; by left|].
  destruct (decide (m = "markers")) as [->|Hm].
  - destruct (colors !! "test") as [c|] eqn:E;
      [|intros H; simplify_eq; right; by left].
    rewrite go_Scatter_marker. simpl.
    destruct (valid_color c) eqn:Hv; intros H; simplify_eq.
    right; right. by exists "scatter.marker", c.
  - destruct (decide (m = "lines")) as [->|Hl]; [|done].
    destruct (colors !! "test") as [c|] eqn:E;
      [|intros H; simplify_eq; right; by left].
    rewrite go_Scatter_line. simpl.
    destruct (valid_color c) eqn:Hv; intros H; simplify_eq.
    right; right. by exists "scatter.line", c.
Qed.

Lemma forecast_trace_raise fc colors e :
  forecast_trace fc colors = Raise e → stops colors fc "forecast" e.
Proof.
  unfold forecast_trace, iloc_col0, stops.
  destruct (columns fc); [intros H; simplify_eq; by left|].
  destruct (colors !! "forecast") as [c|] eqn:E;
    [|intros H; simplify_eq; right; by left].
  rewrite go_Scatter_line. simpl.
  destruct (valid_color c) eqn:Hv; intros H; simplify_eq.
  right; right. by exists "scatter.line", c.
Qed.

Lemma optional_raise_inv {X} (f : X → result Scatter) (o : option X) e :
  optional f o = Raise e → ∃ v, o = Some v ∧ f v = Raise e.
Proof.
  destruct o as [v|]; simpl; [|done].
  destruct (f v) eqn:E; intros H; simplify_eq. by exists v.
Qed.

(** Where a call with a valid mode stops, what stopped it, and what it
    had built by then. *)
Lemma build_raise_inv tr te fc m colors ts e :
  m ∈ ["markers"; "lines"] →
  build tr te fc m colors = (ts, Some e) →
  (∃ df role, df ∈ frames tr te fc ∧ needs te fc role ∧
              stops colors df role e) ∧
  name <$> ts ∈ [[]; ["Training Data"]; ["Training Data"; "Test Data"]].
Proof.
  intros Hm. unfold build. intros H.
  destruct (training_trace _ _) as [t1|e1] eqn:E1.
  2:{ simplify_eq. split; [|by left].
      exists tr, "training". split; [by left|]. split; [by left|].
      by apply training_trace_raise. }
  apply training_trace_colored in E1 as [N1 _].
  destruct (optional _ te) as [t2|e2] eqn:E2.
  2:{ simplify_eq. split; [|simpl; rewrite N1; right; by left].
      apply optional_raise_inv in E2 as (td & -> & Ht).
      exists td, "test". split; [right; by left|].
      split; [right; left; split; [by eexists|done]|].
      by eapply test_trace_raise. }
  destruct (optional _ fc) as [t3|e3] eqn:E3; [done|].
  simplify_eq. split.
  - apply optional_raise_inv in E3 as (f & -> & Ht).
    exists f, "forecast". split.
    { unfold frames. apply elem_of_cons. right.
      apply elem_of_app. right. by left. }
    split; [right; right; split; [by eexists|done]|].
    by apply forecast_trace_raise.
  - apply optional_inv in E2 as [[-> ->]|(td & u & -> & Hu & ->)]; simpl.
    + rewrite N1. right; by left.
    + apply (test_trace_colored _ _ _ _ Hm) in Hu as [N2 _].
      rewrite N1, N2. right; right; by left.
Qed.

(** What a call does to the world does not depend on the world: it adds
    at most one figure to the store and, when it returns, shows it. *)
Lemma plot_time_series_shape tr te fc m yl cd :
  ∃ r fs ds,
    (∀ w, run (plot_time_series tr te fc m yl cd) w =
          (r, mkWorld (figures w ++ fs) (displayed w ++ ds))) ∧
    ((∃ fig, r = Ok tt ∧ fs = [fig] ∧ ds = [fig]) ∨
     (∃ e, r = Raise e ∧ (List.length fs ≤ 1)%nat ∧ ds = [])).
Proof.
  destruct (decide (m ∈ ["markers"; "lines"])) as [Hm|Hm].
  - destruct (build tr te fc m (resolve_colors cd)) as [ts [e|]] eqn:Hb.
    + exists (Raise e), [mkFigure ts empty_layout], []. split.
      * intros w. rewrite plot_time_series_run by done. rewrite Hb.
        by rewrite app_nil_r.
      * right. exists e. split_and!; [done|simpl; lia|done].
    + exists (Ok tt), [final_figure ts yl], [final_figure ts yl]. split.
      * intros w. rewrite plot_time_series_run by done. by rewrite Hb.
      * left. by eexists.
  - exists (Raise mode_error), [], []. split.
    + intros [fs ds]. rewrite plot_time_series_invalid by done.
      simpl. by rewrite !app_nil_r.
    + right. exists mode_error. split_and!; [done|simpl; lia|done].
Qed.

Lemma same_series_iloc df df' :
  same_series df df' → iloc_col0 df = iloc_col0 df'.
Proof.
  intros [_ Hh]. unfold iloc_col0.
  destruct (columns df), (columns df'); simpl in Hh; by simplify_eq.
Qed.

Lemma training_trace_same df df' colors :
  same_series df df' → training_trace df colors = training_trace df' colors.
Proof.
  intros H. unfold training_trace.
  rewrite (same_series_iloc _ _ H). by destruct H as [-> _].
Qed.

Lemma test_trace_same df df' m colors :
  same_series df df' → test_trace df m colors = test_trace df' m colors.
Proof.
  intros H. unfold test_trace.
  rewrite (same_series_iloc _ _ H). by destruct H as [-> _].
Qed.

Lemma forecast_trace_same df df' colors :
  same_series df df' → forecast_trace df colors = forecast_trace df' colors.
Proof.
  intros H. unfold forecast_trace.
  rewrite (same_series_iloc _ _ H). by destruct H as [-> _].
Qed.

(** Two calls that build the same traces, or stop the same way, are the
    same call. *)
Lemma plot_time_series_build_ext tr te fc cd tr' te' fc' cd' m yl w :
  build tr te fc m (resolve_colors cd) =
    build tr' te' fc' m (resolve_colors cd') →
  run (plot_time_series tr te fc m yl cd) w =
  run (plot_time_series tr' te' fc' m yl cd') w.
Proof.
  intros Hb. destruct (decide (m ∈ ["markers"; "lines"])) as [Hm|Hm].
  - rewrite !plot_time_series_run by done. by rewrite Hb.
  - by rewrite !plot_time_series_invalid.
Qed.

(** ** The claims *)

(** C1. A call whose [test_data_mode] is neither "markers" nor "lines"
    raises the ValueError of the mode check and leaves the world as it
    was: no figure object exists, so no trace was built, and nothing was
    shown. This holds whatever the frames and whatever [color_dict]: no
    column was read and no colour was looked up before. *)
Theorem C1_invalid_mode_raises_first tr te fc m yl cd w :
  m ≠ "markers" → m ≠ "lines" →
  run (plot_time_series tr te fc m yl cd) w =
  (Raise (ValueError
            "Invalid value for test_data_mode. Choose 'markers' or 'lines'."),
   w).
Proof.
  intros H1 H2. apply plot_time_series_invalid.
  rewrite mode_valid_iff. tauto.
Qed.

(** C2. With [test_data] and [forecast] both [None] and a valid mode, the
    figure a completed call shows has exactly one trace: the line named
    "Training Data" over the training series, index against first column,
    in the "training" colour of the resolved mapping. *)
Theorem C2_training_only tr m yl cd w w' :
  m ∈ ["markers"; "lines"] →
  run (plot_time_series tr None None m yl cd) w = (Ok tt, w') →
  ∃ ys c fig,
    iloc_col0 tr = Ok ys ∧
    resolve_colors cd !! "training" = Some c ∧
    data fig = [mkScatter (index tr) ys "lines" "Training Data"
                          None (Some (mkLine c None))] ∧
    layout fig = apply_layout (layout_kw yl) empty_layout ∧
    w' = mkWorld (figures w ++ [fig]) (displayed w ++ [fig]).
Proof.
  intros Hm H. apply plot_time_series_ok_inv in H
    as (_ & t1 & t2 & t3 & H1 & H2 & H3 & ->).
  apply training_trace_inv in H1 as (ys & c & Hys & Hc & _ & ->).
  simpl in H2, H3. simplify_eq.
  eexists ys, c, (final_figure _ yl). by repeat split.
Qed.

(** C3. When test data is passed and the mode is "markers", the second
    trace of the figure a completed call shows is the test trace: mode
    "markers", a marker of size 6 in the "test" colour of the resolved
    mapping, and no line. *)
Theorem C3_test_markers tr td fc yl cd w w' :
  run (plot_time_series tr (Some td) fc "markers" yl cd) w = (Ok tt, w') →
  ∃ fig ys c,
    displayed w' = displayed w ++ [fig] ∧
    iloc_col0 td = Ok ys ∧
    resolve_colors cd !! "test" = Some c ∧
    data fig !! 1 = Some (mkScatter (index td) ys "markers" "Test Data"
                                    (Some (mkMarker c (Some 6%Z))) None).
Proof.
  intros H. apply plot_time_series_ok_inv in H
    as (_ & t1 & t2 & t3 & H1 & H2 & H3 & ->).
  apply optional_inv in H2 as [[? _]|(v & t & Hv & Ht & ->)]; [done|].
  simplify_eq.
  apply test_trace_markers_inv in Ht as (ys & c & Hys & Hc & _ & ->).
  by eexists (final_figure _ yl), ys, c.
Qed.

(** C4. When test data is passed and the mode is "lines", the second
    trace of the figure a completed call shows is the test trace: mode
    "lines", a line in the "test" colour of the resolved mapping, and no
    marker. *)
Theorem C4_test_lines tr td fc yl cd w w' :
  run (plot_time_series tr (Some td) fc "lines" yl cd) w = (Ok tt, w') →
  ∃ fig ys c,
    displayed w' = displayed w ++ [fig] ∧
    iloc_col0 td = Ok ys ∧
    resolve_colors cd !! "test" = Some c ∧
    data fig !! 1 = Some (mkScatter (index td) ys "lines" "Test Data"
                                    None (Some (mkLine c None))).
Proof.
  intros H. apply plot_time_series_ok_inv in H
    as (_ & t1 & t2 & t3 & H1 & H2 & H3 & ->).
  apply optional_inv in H2 as [[? _]|(v & t & Hv & Ht & ->)]; [done|].
  simplify_eq.
  apply test_trace_lines_inv in Ht as (ys & c & Hys & Hc & _ & ->).
  by eexists (final_figure _ yl), ys, c.
Qed.

(** C5. When training data, test data and forecast are all passed, the
    figure a completed call shows has exactly three traces, and the third
    is the forecast: a line named "Point Forecast", dashed, in the
    "forecast" colour of the resolved mapping. *)
Theorem C5_three_traces tr td fc m yl cd w w' :
  m ∈ ["markers"; "lines"] →
  run (plot_time_series tr (Some td) (Some fc) m yl cd) w = (Ok tt, w') →
  ∃ fig t1 t2 ys c,
    displayed w' = displayed w ++ [fig] ∧
    iloc_col0 fc = Ok ys ∧
    resolve_colors cd !! "forecast" = Some c ∧
    name t1 = "Training Data" ∧
    name t2 = "Test Data" ∧
    data fig = [t1; t2;
                mkScatter (index fc) ys "lines" "Point Forecast"
                          None (Some (mkLine c (Some "dash")))].
Proof.
  intros Hm H. apply plot_time_series_ok_inv in H
    as (_ & t1 & t2 & t3 & H1 & H2 & H3 & ->).
  apply training_trace_inv in H1 as (ys1 & c1 & _ & _ & _ & ->).
  apply optional_inv in H2 as [[? _]|(v2 & u2 & Hv2 & Ht2 & ->)]; [done|].
  apply optional_inv in H3 as [[? _]|(v3 & u3 & Hv3 & Ht3 & ->)]; [done|].
  simplify_eq.
  apply forecast_trace_inv in Ht3 as (ys & c & Hys & Hc & _ & ->).
  eexists (final_figure _ yl), _, u2, ys, c.
  repeat split; try done.
  apply mode_valid_iff in Hm as [->| ->].
  - by apply test_trace_markers_inv in Ht2 as (? & ? & _ & _ & _ & ->).
  - by apply test_trace_lines_inv in Ht2 as (? & ? & _ & _ & _ & ->).
Qed.

(** C6. With [color_dict = None] a call with a valid mode and a column
    in every frame returns, and each trace of the figure it shows carries
    one colour, the default of its role: #0072B2 for training, #000000
    for test, #FF0000 for forecast. With a mapping that has, for every
    role the call needs, a colour Plotly takes, the call returns as
    well, and each trace carries the one colour the mapping has under
    the key of its role. In both cases the traces are the training
    trace, then the test trace if test data was passed, then the
    forecast trace if a forecast was passed. *)
Theorem C6_trace_colors tr te fc m yl cd w :
  m ∈ ["markers"; "lines"] →
  (∀ df, df ∈ frames tr te fc → has_column df) →
  (∀ d role, cd = Some d → needs te fc role → accepted d role) →
  ∃ fig,
    run (plot_time_series tr te fc m yl cd) w =
      (Ok tt, mkWorld (figures w ++ [fig]) (displayed w ++ [fig])) ∧
    name <$> data fig =
      ["Training Data"] ++
      match te with Some _ => ["Test Data"] | None => [] end ++
      match fc with Some _ => ["Point Forecast"] | None => [] end ∧
    match cd with
    | None =>
        ∀ t, t ∈ data fig →
             (name t, trace_colors t) ∈ [("Training Data", ["#0072B2"]);
                                         ("Test Data", ["#000000"]);
                                         ("Point Forecast", ["#FF0000"])]
    | Some d =>
        ∀ t, t ∈ data fig →
             ∃ role c, (role, name t) ∈ roles ∧ d !! role = Some c ∧
                       trace_colors t = [c]
    end.
Proof.
  intros Hm Hcol Hacc.
  destruct (plot_time_series_completes tr te fc m yl cd w Hm Hcol) as [w' H].
  { intros role Hn. destruct cd as [d|]; simpl.
    - by apply Hacc.
    - apply default_colors_accepted. by eapply needs_role. }
  rewrite H. apply plot_time_series_ok_inv in H
    as (_ & t1 & t2 & t3 & H1 & H2 & H3 & ->).
  destruct (built_traces _ _ _ _ _ _ _ _ Hm H1 H2 H3) as [Hn Hc].
  exists (final_figure (t1 :: t2 ++ t3) yl). split; [done|].
  split; [exact Hn|].
  destruct cd as [d|]; simpl in Hc |- *.
  - exact Hc.
  - intros t Ht. apply colored_by_default. by apply Hc.
Qed.

(** C7. In the figure a completed call shows, the caption of the y axis
    is [y_axis_label] as passed and the caption of the x axis is "Date",
    whatever the other arguments. *)
Theorem C7_axis_captions tr te fc m yl cd w w' :
  run (plot_time_series tr te fc m yl cd) w = (Ok tt, w') →
  ∃ fig,
    displayed w' = displayed w ++ [fig] ∧
    y_title (yaxis (layout fig)) = Some yl ∧
    x_title (xaxis (layout fig)) = Some "Date".
Proof.
  intros H. apply plot_time_series_ok_inv in H
    as (_ & t1 & t2 & t3 & _ & _ & _ & ->).
  by exists (final_figure (t1 :: t2 ++ t3) yl).
Qed.

(** C8. The defaults come as a whole or not at all. A call with
    [color_dict = None] is the call with the whole default mapping. A
    call with a mapping uses that mapping as it is: a key it needs and
    the mapping lacks is not filled from the defaults, the call raises
    and shows nothing; and when the call completes, every colour in the
    figure is one the caller's mapping holds under the trace's role. *)
Theorem C8_defaults_all_or_nothing tr te fc m yl w :
  run (plot_time_series tr te fc m yl None) w =
    run (plot_time_series tr te fc m yl (Some default_colors)) w ∧
  (∀ d role, resolve_colors (Some d) !! role = d !! role) ∧
  (∀ d role,
     needs te fc role → d !! role = None →
     ∃ e w', run (plot_time_series tr te fc m yl (Some d)) w = (Raise e, w') ∧
             displayed w' = displayed w) ∧
  (∀ d w',
     run (plot_time_series tr te fc m yl (Some d)) w = (Ok tt, w') →
     ∃ fig, displayed w' = displayed w ++ [fig] ∧
            ∀ t, t ∈ data fig →
                 ∃ role c, (role, name t) ∈ roles ∧ d !! role = Some c ∧
                           trace_colors t = [c]).
Proof.
  split; [reflexivity|]. split; [reflexivity|]. split.
  - intros d role. apply missing_key_no_display.
  - intros d w' H. apply plot_time_series_ok_inv in H
      as (Hm & t1 & t2 & t3 & H1 & H2 & H3 & ->).
    destruct (built_traces _ _ _ _ _ _ _ _ Hm H1 H2 H3) as [_ Hc].
    by exists (final_figure (t1 :: t2 ++ t3) yl).
Qed.

(** C9. The mode is checked whether or not it will be used. With
    [test_data = None] an invalid mode still raises the ValueError of the
    check, in an unchanged world. With [test_data = None] and a valid
    mode the call goes on past the check, to the creation of its figure;
    and which of the two valid modes was passed makes no difference to
    the outcome. *)
Theorem C9_mode_checked_unconditionally tr fc yl cd w :
  (∀ m, m ≠ "markers" → m ≠ "lines" →
        run (plot_time_series tr None fc m yl cd) w =
        (Raise (ValueError
           "Invalid value for test_data_mode. Choose 'markers' or 'lines'."),
         w)) ∧
  (∀ m, m ∈ ["markers"; "lines"] →
        ∃ r w', run (plot_time_series tr None fc m yl cd) w = (r, w') ∧
                List.length (figures w') = S (List.length (figures w))) ∧
  (∀ m1 m2, m1 ∈ ["markers"; "lines"] → m2 ∈ ["markers"; "lines"] →
            run (plot_time_series tr None fc m1 yl cd) w =
            run (plot_time_series tr None fc m2 yl cd) w).
Proof.
  split; [|split].
  - intros m H1 H2. apply plot_time_series_invalid.
    rewrite mode_valid_iff. tauto.
  - intros m Hm. rewrite plot_time_series_run by done.
    destruct (build _ _ _ _ _) as [ts [e|]] eqn:Hb.
    + eexists _, _. split; [done|].
      simpl. rewrite length_app. simpl. lia.
    + eexists _, _. split; [done|].
      simpl. rewrite length_app. simpl. lia.
  - intros m1 m2 H1 H2. by rewrite !plot_time_series_run.
Qed.

(** C10, as amended. A call whose mapping lacks a colour it needs never
    reaches the display call: it raises and shows nothing. The exception
    is the KeyError of the first missing key when the mode is valid and
    every trace before that lookup could be built, that is, every frame
    read before the lookup has a column and every colour looked up
    before it is one Plotly takes: "training" first, then "test" when
    test data was passed, then "forecast" when a forecast was passed. *)
Theorem C10_missing_key tr te fc m yl d w :
  (∀ role, needs te fc role → d !! role = None →
     ∃ e w', run (plot_time_series tr te fc m yl (Some d)) w = (Raise e, w') ∧
             displayed w' = displayed w) ∧
  (m ∈ ["markers"; "lines"] → has_column tr → d !! "training" = None →
     ∃ w', run (plot_time_series tr te fc m yl (Some d)) w =
             (Raise (KeyError "training"), w') ∧
           displayed w' = displayed w) ∧
  (∀ td, m ∈ ["markers"; "lines"] → has_column tr →
         accepted d "training" →
         te = Some td → has_column td → d !! "test" = None →
     ∃ w', run (plot_time_series tr te fc m yl (Some d)) w =
             (Raise (KeyError "test"), w') ∧
           displayed w' = displayed w) ∧
  (∀ f, m ∈ ["markers"; "lines"] → has_column tr →
        accepted d "training" →
        (∀ td, te = Some td → has_column td ∧ accepted d "test") →
        fc = Some f → has_column f → d !! "forecast" = None →
     ∃ w', run (plot_time_series tr te fc m yl (Some d)) w =
             (Raise (KeyError "forecast"), w') ∧
           displayed w' = displayed w).
Proof.
  split; [intros role; apply missing_key_no_display|].
  split; [|split].
  - intros Hm [ys Hys]%iloc_col0_ok Hnone.
    rewrite plot_time_series_run by done. simpl.
    unfold build, training_trace. rewrite Hys, Hnone. by eexists.
  - intros td Hm [ys Hys]%iloc_col0_ok (c & Hc & Hv) ->
      [ys2 Hys2]%iloc_col0_ok Hnone.
    rewrite plot_time_series_run by done. simpl.
    unfold build. rewrite (training_trace_ok _ _ _ _ Hys Hc Hv).
    unfold optional, test_trace. rewrite Hys2, Hnone.
    apply mode_valid_iff in Hm as [->| ->].
    + rewrite decide_True by done. by eexists.
    + rewrite decide_False, decide_True by done. by eexists.
  - intros f Hm [ys Hys]%iloc_col0_ok (c & Hc & Hv) Hte ->
      [ys3 Hys3]%iloc_col0_ok Hnone.
    rewrite plot_time_series_run by done. simpl.
    unfold build. rewrite (training_trace_ok _ _ _ _ Hys Hc Hv).
    assert (∃ t2, optional (λ td, test_trace td m d) te = Ok t2) as [t2 ->].
    { destruct te as [td|]; [|by eexists].
      destruct (Hte td eq_refl) as [Hcol Hacc].
      destruct (test_trace_ok td m d Hm Hcol Hacc) as [t Ht].
      simpl. rewrite Ht. by eexists. }
    unfold optional, forecast_trace. rewrite Hys3, Hnone. by eexists.
Qed.

(** ** Further properties of [plot_time_series] *)

(** X1. The layout of the figure a completed call shows is fixed, but
    for the caption of the y axis: the title, the spikes of the x axis
    (shown, across, at the cursor, dotted, 1.5 thick, gray), no spikes on
    the y axis, hover mode "x", the template "plotly_white" and a
    horizontal legend anchored bottom right at (1, 1.02). *)
Theorem X1_fixed_layout tr te fc m yl cd w w' :
  run (plot_time_series tr te fc m yl cd) w = (Ok tt, w') →
  ∃ fig,
    displayed w' = displayed w ++ [fig] ∧
    layout fig =
      mkLayout (Some "Univariate Time Series Visualization")
               (mkXAxis (Some true) (Some "across") (Some "cursor")
                        (Some "dot") (Some (3 # 2)%Q) (Some "gray")
                        (Some "Date"))
               (mkYAxis (Some false) (Some yl))
               (Some "x")
               (Some "plotly_white")
               (mkLegend (Some "h") (Some "bottom") (Some (51 # 50)%Q)
                         (Some "right") (Some 1%Q)).
Proof.
  intros H. apply plot_time_series_ok_inv in H
    as (_ & t1 & t2 & t3 & _ & _ & _ & ->).
  by exists (final_figure (t1 :: t2 ++ t3) yl).
Qed.

(** X2. A call neither reads nor changes what was in the world before
    it: its result, the figure it adds to the store and the figure it
    shows are the same in every world, the figures stored and shown
    before stay as they were, in place. A call that returns adds one
    figure and shows that same figure; a call that raises adds at most
    one figure and shows none. *)
Theorem X2_stateless tr te fc m yl cd :
  ∃ r fs ds,
    (∀ w, run (plot_time_series tr te fc m yl cd) w =
          (r, mkWorld (figures w ++ fs) (displayed w ++ ds))) ∧
    ((∃ fig, r = Ok tt ∧ fs = [fig] ∧ ds = [fig]) ∨
     (∃ e, r = Raise e ∧ (List.length fs ≤ 1)%nat ∧ ds = [])).
Proof. apply plot_time_series_shape. Qed.

(** X3. Only the index and the first column of a frame are read: frames
    that agree on these give the same run, whatever their other
    columns. *)
Theorem X3_first_column_only tr tr' te te' fc fc' m yl cd w :
  same_series tr tr' →
  option_Forall2 same_series te te' →
  option_Forall2 same_series fc fc' →
  run (plot_time_series tr te fc m yl cd) w =
  run (plot_time_series tr' te' fc' m yl cd) w.
Proof.
  intros Htr Hte Hfc. apply plot_time_series_build_ext.
  unfold build. rewrite (training_trace_same _ _ _ Htr).
  destruct Hte as [td td' Htd|], Hfc as [f f' Hf|]; simpl;
    try rewrite (test_trace_same _ _ _ _ Htd);
    try rewrite (forecast_trace_same _ _ _ Hf);
    reflexivity.
Qed.

(** X4. With a valid mode and, for every role the call needs, a colour
    in the mapping that Plotly takes, a frame without columns among
    those passed makes the call raise IndexError, and nothing is
    shown. *)
Theorem X4_no_column_index_error tr te fc m yl cd w df :
  m ∈ ["markers"; "lines"] →
  (∀ role, needs te fc role → accepted (resolve_colors cd) role) →
  df ∈ frames tr te fc → columns df = [] →
  ∃ w', run (plot_time_series tr te fc m yl cd) w =
          (Raise (IndexError "single positional indexer is out-of-bounds"),
           w') ∧
        displayed w' = displayed w.
Proof.
  intros Hm Hkey Hdf Hcol. rewrite plot_time_series_run by done.
  destruct (build _ _ _ _ _) as [ts [e|]] eqn:Hb.
  - apply (build_raise_inv _ _ _ _ _ _ _ Hm) in Hb
      as [(df' & role & _ & Hn & Hs) _].
    destruct (Hkey role Hn) as (c & Hc & Hv).
    destruct Hs as [[-> _]|[[-> Hk]|(owner & c' & -> & Hc' & Hv')]].
    + by eexists.
    + congruence.
    + congruence.
  - exfalso.
    assert (∃ w', run (plot_time_series tr te fc m yl cd) w = (Ok tt, w'))
      as Hok.
    { rewrite plot_time_series_run by done. rewrite Hb. by eexists. }
    apply plot_time_series_completes_iff in Hok as (_ & Hcols & _).
    by apply (Hcols df Hdf).
Qed.

(** X5. A call raises for one of four reasons and no other. An invalid
    mode gives the ValueError of the mode check, in an unchanged world.
    With a valid mode, and with nothing shown, the exception is the
    IndexError of a frame passed that has no column, the KeyError of a
    key the call needs and the mapping lacks, or the ValueError of
    Plotly for a colour the call needs and Plotly does not take. *)
Theorem X5_exceptions tr te fc m yl cd w e w' :
  run (plot_time_series tr te fc m yl cd) w = (Raise e, w') →
  (e = ValueError
         "Invalid value for test_data_mode. Choose 'markers' or 'lines'." ∧
   (m ∉ ["markers"; "lines"]) ∧ w' = w) ∨
  (m ∈ ["markers"; "lines"] ∧ displayed w' = displayed w ∧
   ((e = IndexError "single positional indexer is out-of-bounds" ∧
     ∃ df, df ∈ frames tr te fc ∧ columns df = []) ∨
    (∃ k, e = KeyError k ∧ needs te fc k ∧ resolve_colors cd !! k = None) ∨
    (∃ role owner c,
       e = ValueError (color_error owner c) ∧ needs te fc role ∧
       resolve_colors cd !! role = Some c ∧ valid_color c = false))).
Proof.
  intros H. destruct (decide (m ∈ ["markers"; "lines"])) as [Hm|Hm].
  - right. split; [done|]. rewrite plot_time_series_run in H by done.
    destruct (build _ _ _ _ _) as [ts [e'|]] eqn:Hb; [|done].
    simplify_eq. split; [done|].
    apply (build_raise_inv _ _ _ _ _ _ _ Hm) in Hb
      as [(df & role & Hdf & Hn & Hs) _].
    destruct Hs as [[-> Hc]|[[-> Hk]|(owner & c & -> & Hc & Hv)]].
    + left. split; [done|]. by exists df.
    + right; left. by exists role.
    + right; right. by exists role, owner, c.
  - left. rewrite plot_time_series_invalid in H by done.
    unfold mode_error in H. by simplify_eq.
Qed.

(** X6. Of a mapping, a call reads the keys it needs and no other: two
    mappings that agree on "training", on "test" when test data is
    passed and on "forecast" when a forecast is passed give the same
    run. *)
Theorem X6_only_needed_keys tr te fc m yl (d d' : gmap string string) w :
  (∀ role, needs te fc role → d !! role = d' !! role) →
  run (plot_time_series tr te fc m yl (Some d)) w =
  run (plot_time_series tr te fc m yl (Some d')) w.
Proof.
  intros Hk. apply plot_time_series_build_ext. simpl.
  assert (H1 : d !! "training" = d' !! "training") by (apply Hk; by left).
  unfold build, training_trace. rewrite H1.
  assert (H2 : optional (λ td, test_trace td m d) te =
               optional (λ td, test_trace td m d') te).
  { destruct te as [td|]; [|done]. simpl. unfold test_trace.
    rewrite (Hk "test"); [done|]. right; left. split; [by eexists|done]. }
  assert (H3 : optional (λ f, forecast_trace f d) fc =
               optional (λ f, forecast_trace f d') fc).
  { destruct fc as [f|]; [|done]. simpl. unfold forecast_trace.
    rewrite (Hk "forecast"); [done|]. right; right. split; [by eexists|done]. }
  by rewrite H2, H3.
Qed.

(** X7. The traces of the figure a completed call shows plot the frames
    it was passed, one trace per frame and in the order training, test,
    forecast: the x values of a trace are the index of its frame, the y
    values are the frame's first column. *)
Theorem X7_trace_data tr te fc m yl cd w w' :
  run (plot_time_series tr te fc m yl cd) w = (Ok tt, w') →
  ∃ fig,
    displayed w' = displayed w ++ [fig] ∧
    (λ t, (x t, Ok (y t))) <$> data fig =
    (λ df, (index df, iloc_col0 df)) <$> frames tr te fc.
Proof.
  intros H. apply plot_time_series_ok_inv in H
    as (Hm & t1 & t2 & t3 & H1 & H2 & H3 & ->).
  exists (final_figure (t1 :: t2 ++ t3) yl). split; [done|].
  apply training_trace_inv in H1 as (ys1 & c1 & Hy1 & _ & _ & ->).
  unfold frames. simpl. rewrite !fmap_app, Hy1. f_equal. f_equal.
  - apply optional_inv in H2 as [[-> ->]|(td & u & -> & Hu & ->)]; [done|].
    simpl. apply mode_valid_iff in Hm as [->| ->].
    + apply test_trace_markers_inv in Hu as (ys & c & Hy & _ & _ & ->).
      simpl. by rewrite Hy.
    + apply test_trace_lines_inv in Hu as (ys & c & Hy & _ & _ & ->).
      simpl. by rewrite Hy.
  - apply optional_inv in H3 as [[-> ->]|(f & u & -> & Hu & ->)]; [done|].
    apply forecast_trace_inv in Hu as (ys & c & Hy & _ & _ & ->).
    simpl. by rewrite Hy.
Qed.

(** X8. A call returns exactly when the mode is valid, every frame it
    was passed has a column, and the mapping has, for every role the
    call needs, a colour that Plotly takes: "training", "test" when test
    data is passed, "forecast" when a forecast is passed. *)
Theorem X8_completes_iff tr te fc m yl cd w :
  (∃ w', run (plot_time_series tr te fc m yl cd) w = (Ok tt, w')) ↔
  m ∈ ["markers"; "lines"] ∧
  (∀ df, df ∈ frames tr te fc → has_column df) ∧
  (∀ role, needs te fc role →
           ∃ c, resolve_colors cd !! role = Some c ∧ valid_color c = true).
Proof. apply plot_time_series_completes_iff. Qed.

(** X9. With [color_dict = None] no call raises KeyError, and a call
    returns exactly when the mode is valid and every frame it was passed
    has a column. *)
Theorem X9_default_colors_suffice tr te fc m yl w :
  (∀ k w', run (plot_time_series tr te fc m yl None) w ≠
           (Raise (KeyError k), w')) ∧
  ((∃ w', run (plot_time_series tr te fc m yl None) w = (Ok tt, w')) ↔
   m ∈ ["markers"; "lines"] ∧ ∀ df, df ∈ frames tr te fc → has_column df).
Proof.
  assert (Hkeys : ∀ role, needs te fc role →
                          accepted (resolve_colors None) role).
  { intros role Hn. apply default_colors_accepted. by eapply needs_role. }
  split.
  - intros k w' H. destruct (decide (m ∈ ["markers"; "lines"])) as [Hm|Hm].
    + rewrite plot_time_series_run in H by done.
      destruct (build _ _ _ _ _) as [ts [e|]] eqn:Hb; [|done].
      simplify_eq.
      apply (build_raise_inv _ _ _ _ _ _ _ Hm) in Hb
        as [(df & role & _ & Hn & Hs) _].
      destruct (Hkeys role Hn) as (c & Hc & Hv).
      destruct Hs as [[? _]|[[_ Hk]|(owner & c' & ? & _)]];
        [done|congruence|done].
    + by rewrite plot_time_series_invalid in H.
  - rewrite plot_time_series_completes_iff. split.
    + by intros (Hm & Hc & _).
    + by intros [Hm Hc].
Qed.

(** X10. Called with the training frame alone, every other parameter at
    its default, the function returns whenever the frame has a column,
    and shows one figure: the training line in #0072B2 and nothing else,
    with "Value" as the caption of the y axis. *)
Theorem X10_defaults tr w :
  has_column tr →
  ∃ ys fig,
    iloc_col0 tr = Ok ys ∧
    run (plot_time_series_defaults tr) w =
      (Ok tt, mkWorld (figures w ++ [fig]) (displayed w ++ [fig])) ∧
    data fig = [mkScatter (index tr) ys "lines" "Training Data"
                          None (Some (mkLine "#0072B2" None))] ∧
    y_title (yaxis (layout fig)) = Some "Value".
Proof.
  intros [ys Hys]%iloc_col0_ok.
  exists ys, (final_figure
                [mkScatter (index tr) ys "lines" "Training Data"
                           None (Some (mkLine "#0072B2" None))] "Value").
  split; [done|]. split; [|done].
  unfold plot_time_series_defaults.
  apply (plot_time_series_ok tr None None "markers" "Value" None w _ [] []);
    [by left| |done|done].
  by apply training_trace_ok.
Qed.

(** X11. A call with a valid mode that raises leaves behind the figure
    it was building: in the store, never shown, with the layout a new
    figure has (the keywords of [update_layout] were not applied) and
    with the traces built before the exception, which are none, the
    training trace, or the training and the test trace. *)
Theorem X11_partial_figure tr te fc m yl cd w e w' :
  m ∈ ["markers"; "lines"] →
  run (plot_time_series tr te fc m yl cd) w = (Raise e, w') →
  ∃ fig,
    figures w' = figures w ++ [fig] ∧
    displayed w' = displayed w ∧
    layout fig = empty_layout ∧
    name <$> data fig ∈ [[]; ["Training Data"]; ["Training Data"; "Test Data"]].
Proof.
  intros Hm H. rewrite plot_time_series_run in H by done.
  destruct (build _ _ _ _ _) as [ts [e'|]] eqn:Hb; [|done].
  simplify_eq.
  apply (build_raise_inv _ _ _ _ _ _ _ Hm) in Hb as [_ Hn].
  by exists (mkFigure ts empty_layout).
Qed.

(** X12. Calls do not share a figure. When a call returns, making the
    same call twice in a row creates two figure objects and shows two
    figures, each equal to the one the single call shows: the traces of
    the first call are not carried into the second. *)
Theorem X12_twice tr te fc m yl cd w w' :
  run (plot_time_series tr te fc m yl cd) w = (Ok tt, w') →
  ∃ fig,
    w' = mkWorld (figures w ++ [fig]) (displayed w ++ [fig]) ∧
    run (plot_time_series tr te fc m yl cd;;
         plot_time_series tr te fc m yl cd) w =
    (Ok tt, mkWorld (figures w ++ [fig; fig]) (displayed w ++ [fig; fig])).
Proof.
  intros H.
  destruct (plot_time_series_shape tr te fc m yl cd)
    as (r & fs & ds & Hrun & [(fig & -> & -> & ->)|(e & -> & _)]).
  - exists fig. rewrite Hrun in H. simplify_eq. split; [done|].
    rewrite run_bind, !Hrun. simpl. by rewrite <- !app_assoc.
  - rewrite Hrun in H. discriminate H.
Qed.

End Plot.

(** ** The statements at work

    Each theorem with a hypothesis is run once, on the sample data and
    with the sample Plotly. *)

Local Abbreviation plot :=
  (plot_time_series sample_accepts sample_color_error sample_template).

Lemma sample_mode_markers : "markers" ∈ ["markers"; "lines"].
Proof. left. Defined.

Lemma sample_mode_lines : "lines" ∈ ["markers"; "lines"].
Proof. right; left. Defined.

Lemma sample_frames_columns (dfs : list DataFrame) :
  forallb (λ df, negb (bool_decide (columns df = []))) dfs = true →
  ∀ df, df ∈ dfs → has_column df.
Proof.
  intros H df Hdf. apply list_elem_of_In in Hdf.
  rewrite forallb_forall in H. specialize (H df Hdf).
  apply negb_true_iff, bool_decide_eq_false in H. exact H.
Defined.

Lemma C1_witness :
  "dots" ≠ "markers" ∧ "dots" ≠ "lines" ∧
  run (plot df_nocol (Some df_nocol) (Some df_fc) "dots" "Sales" (Some ∅)) w0 =
  (Raise (ValueError
            "Invalid value for test_data_mode. Choose 'markers' or 'lines'."),
   w0).
Proof.
  split; [discriminate|]. split; [discriminate|].
  apply C1_invalid_mode_raises_first; discriminate.
Defined.

Lemma C2_witness :
  let call := run (plot df_train None None "lines" "Sales" None) w0 in
  "lines" ∈ ["markers"; "lines"] ∧
  call = (Ok tt, call.2) ∧
  ∃ ys c fig,
    iloc_col0 df_train = Ok ys ∧
    resolve_colors None !! "training" = Some c ∧
    data fig = [mkScatter (index df_train) ys "lines" "Training Data"
                          None (Some (mkLine c None))] ∧
    layout fig = apply_layout (layout_kw "Sales")
                              (empty_layout sample_template) ∧
    call.2 = mkWorld (figures w0 ++ [fig]) (displayed w0 ++ [fig]).
Proof.
  split; [exact sample_mode_lines|]. split; [reflexivity|].
  exact (C2_training_only sample_accepts sample_color_error sample_template
           df_train "lines" "Sales" None w0 _ sample_mode_lines eq_refl).
Defined.

Lemma C3_witness :
  let call := run (plot df_train (Some df_test) None "markers" "Sales" None)
                  w0 in
  call = (Ok tt, call.2) ∧
  ∃ fig ys c,
    displayed call.2 = displayed w0 ++ [fig] ∧
    iloc_col0 df_test = Ok ys ∧
    resolve_colors None !! "test" = Some c ∧
    data fig !! 1 = Some (mkScatter (index df_test) ys "markers" "Test Data"
                                    (Some (mkMarker c (Some 6%Z))) None).
Proof.
  split; [reflexivity|].
  exact (C3_test_markers sample_accepts sample_color_error sample_template
           df_train df_test None "Sales" None w0 _ eq_refl).
Defined.

Lemma C4_witness :
  let call := run (plot df_train (Some df_test) (Some df_fc) "lines" "Sales"
                        None) w0 in
  call = (Ok tt, call.2) ∧
  ∃ fig ys c,
    displayed call.2 = displayed w0 ++ [fig] ∧
    iloc_col0 df_test = Ok ys ∧
    resolve_colors None !! "test" = Some c ∧
    data fig !! 1 = Some (mkScatter (index df_test) ys "lines" "Test Data"
                                    None (Some (mkLine c None))).
Proof.
  split; [reflexivity|].
  exact (C4_test_lines sample_accepts sample_color_error sample_template
           df_train df_test (Some df_fc) "Sales" None w0 _ eq_refl).
Defined.

Lemma C5_witness :
  let call := run (plot df_train (Some df_test) (Some df_fc) "markers" "Sales"
                        None) w0 in
  "markers" ∈ ["markers"; "lines"] ∧
  call = (Ok tt, call.2) ∧
  ∃ fig t1 t2 ys c,
    displayed call.2 = displayed w0 ++ [fig] ∧
    iloc_col0 df_fc = Ok ys ∧
    resolve_colors None !! "forecast" = Some c ∧
    name t1 = "Training Data" ∧
    name t2 = "Test Data" ∧
    data fig = [t1; t2;
                mkScatter (index df_fc) ys "lines" "Point Forecast"
                          None (Some (mkLine c (Some "dash")))].
Proof.
  split; [exact sample_mode_markers|]. split; [reflexivity|].
  exact (C5_three_traces sample_accepts sample_color_error sample_template
           df_train df_test df_fc "markers" "Sales" None w0 _
           sample_mode_markers eq_refl).
Defined.

(** One call without a mapping, one with. *)
Lemma C6_witness :
  (∃ fig,
     run (plot df_train (Some df_test) (Some df_fc) "markers" "Sales" None)
         w0 = (Ok tt, mkWorld (figures w0 ++ [fig]) (displayed w0 ++ [fig])) ∧
     name <$> data fig =
       ["Training Data"] ++ ["Test Data"] ++ ["Point Forecast"] ∧
     ∀ t, t ∈ data fig →
          (name t, trace_colors t) ∈ [("Training Data", ["#0072B2"]);
                                      ("Test Data", ["#000000"]);
                                      ("Point Forecast", ["#FF0000"])]) ∧
  (∃ fig,
     run (plot df_train (Some df_test) None "lines" "Sales" (Some colors_two))
         w0 = (Ok tt, mkWorld (figures w0 ++ [fig]) (displayed w0 ++ [fig])) ∧
     name <$> data fig = ["Training Data"] ++ ["Test Data"] ++ [] ∧
     ∀ t, t ∈ data fig →
          ∃ role c, (role, name t) ∈ roles ∧ colors_two !! role = Some c ∧
                    trace_colors t = [c]).
Proof.
  split.
  - apply (C6_trace_colors sample_accepts sample_color_error sample_template
             df_train (Some df_test) (Some df_fc) "markers" "Sales" None w0
             sample_mode_markers).
    + by apply sample_frames_columns.
    + intros d role Hd. discriminate Hd.
  - apply (C6_trace_colors sample_accepts sample_color_error sample_template
             df_train (Some df_test) None "lines" "Sales" (Some colors_two) w0
             sample_mode_lines).
    + by apply sample_frames_columns.
    + intros d role Hd [->|[[_ ->]|[[f Hf] _]]].
      * injection Hd as <-. by exists "green".
      * injection Hd as <-. by exists "orange".
      * discriminate Hf.
Defined.

Lemma C7_witness :
  let call := run (plot df_train None (Some df_fc) "markers" "Passengers"
                        None) w0 in
  call = (Ok tt, call.2) ∧
  ∃ fig,
    displayed call.2 = displayed w0 ++ [fig] ∧
    y_title (yaxis (layout fig)) = Some "Passengers" ∧
    x_title (xaxis (layout fig)) = Some "Date".
Proof.
  split; [reflexivity|].
  exact (C7_axis_captions sample_accepts sample_color_error sample_template
           df_train None (Some df_fc) "markers" "Passengers" None w0 _
           eq_refl).
Defined.

Lemma C8_witness :
  needs (Some df_test) None "test" ∧ colors_plain !! "test" = None ∧
  default_colors !! "test" = Some "#000000" ∧
  ∃ e w',
    run (plot df_train (Some df_test) None "markers" "Sales"
              (Some colors_plain)) w0 = (Raise e, w') ∧
    displayed w' = displayed w0.
Proof.
  assert (Hn : needs (Some df_test) None "test")
    by (right; left; split; [by eexists | reflexivity]).
  split; [exact Hn|]. split; [reflexivity|]. split; [reflexivity|].
  exact (proj1 (proj2 (proj2
           (C8_defaults_all_or_nothing sample_accepts sample_color_error
              sample_template df_train (Some df_test) None "markers" "Sales"
              w0)))
           colors_plain "test" Hn eq_refl).
Defined.

Lemma C9_witness :
  "dots" ≠ "markers" ∧ "dots" ≠ "lines" ∧
  run (plot df_train None None "dots" "Sales" None) w0 =
  (Raise (ValueError
     "Invalid value for test_data_mode. Choose 'markers' or 'lines'."), w0) ∧
  "markers" ∈ ["markers"; "lines"] ∧ "lines" ∈ ["markers"; "lines"] ∧
  run (plot df_train None None "markers" "Sales" None) w0 =
  run (plot df_train None None "lines" "Sales" None) w0.
Proof.
  assert (N1 : "dots" ≠ "markers") by discriminate.
  assert (N2 : "dots" ≠ "lines") by discriminate.
  pose proof (C9_mode_checked_unconditionally sample_accepts
                sample_color_error sample_template df_train None "Sales"
                None w0)
    as (Ha & _ & Hc).
  split; [exact N1|]. split; [exact N2|].
  split; [exact (Ha "dots" N1 N2)|].
  split; [exact sample_mode_markers|]. split; [exact sample_mode_lines|].
  exact (Hc "markers" "lines" sample_mode_markers sample_mode_lines).
Defined.

Lemma C10_witness :
  "lines" ∈ ["markers"; "lines"] ∧ has_column df_train ∧
  accepted sample_accepts colors_plain "training" ∧
  has_column df_test ∧ colors_plain !! "test" = None ∧
  ∃ w', run (plot df_train (Some df_test) (Some df_fc) "lines" "Sales"
                  (Some colors_plain)) w0 =
          (Raise (KeyError "test"), w') ∧
        displayed w' = displayed w0.
Proof.
  assert (H1 : has_column df_train) by discriminate.
  assert (H2 : has_column df_test) by discriminate.
  assert (H3 : accepted sample_accepts colors_plain "training")
    by (by exists "green").
  split; [exact sample_mode_lines|]. split; [exact H1|]. split; [exact H3|].
  split; [exact H2|]. split; [reflexivity|].
  exact (proj1 (proj2 (proj2
           (C10_missing_key sample_accepts sample_color_error sample_template
              df_train (Some df_test) (Some df_fc) "lines" "Sales"
              colors_plain w0)))
           df_test sample_mode_lines H1 H3 eq_refl H2 eq_refl).
Defined.

(** C10, as stated, fails on three kinds of call whose mapping lacks a
    key the call needs. With an invalid mode the mode check raises its
    ValueError first. With a training frame that has no column, reading
    the column raises IndexError before the colour is looked up. With a
    "training" colour Plotly does not take, building the training trace
    raises Plotly's ValueError before "test" is looked up. *)
Lemma C10_counterexample :
  (∅ : gmap string string) !! "training" = None ∧
  run (plot df_train None None "dots" "Sales" (Some ∅)) w0 =
    (Raise (ValueError
       "Invalid value for test_data_mode. Choose 'markers' or 'lines'."),
     w0) ∧
  run (plot df_nocol None None "lines" "Sales" (Some ∅)) w0 =
    (Raise (IndexError "single positional indexer is out-of-bounds"),
     mkWorld [empty_figure sample_template] []) ∧
  colors_bogus !! "test" = None ∧
  run (plot df_train (Some df_test) None "lines" "Sales" (Some colors_bogus))
      w0 =
    (Raise (ValueError (sample_color_error "scatter.line" "bogus")),
     mkWorld [empty_figure sample_template] []) ∧
  ¬ (∀ accepts msg tpl tr te fc m yl (d : gmap string string) w,
       d !! "training" = None →
       ∃ k w', run (plot_time_series accepts msg tpl tr te fc m yl (Some d)) w
               = (Raise (KeyError k), w')).
Proof.
  split; [reflexivity|]. split; [reflexivity|]. split; [reflexivity|].
  split; [reflexivity|]. split; [reflexivity|].
  intros H.
  destruct (H sample_accepts sample_color_error sample_template
              df_train None None "dots" "Sales" ∅ w0 (lookup_empty _))
    as (k & w' & Hk).
  discriminate Hk.
Qed.

Lemma X1_witness :
  let call := run (plot df_train (Some df_test) (Some df_fc) "lines" "Sales"
                        None) w0 in
  call = (Ok tt, call.2) ∧
  ∃ fig,
    displayed call.2 = displayed w0 ++ [fig] ∧
    layout fig =
      mkLayout (Some "Univariate Time Series Visualization")
               (mkXAxis (Some true) (Some "across") (Some "cursor")
                        (Some "dot") (Some (3 # 2)%Q) (Some "gray")
                        (Some "Date"))
               (mkYAxis (Some false) (Some "Sales"))
               (Some "x")
               (Some "plotly_white")
               (mkLegend (Some "h") (Some "bottom") (Some (51 # 50)%Q)
                         (Some "right") (Some 1%Q)).
Proof.
  split; [reflexivity|].
  exact (X1_fixed_layout sample_accepts sample_color_error sample_template
           df_train (Some df_test) (Some df_fc) "lines" "Sales" None w0 _
           eq_refl).
Defined.

Lemma X3_witness :
  same_series df_train_wide df_train ∧
  option_Forall2 same_series (Some df_test) (Some df_test) ∧
  option_Forall2 same_series (@None DataFrame) None ∧
  run (plot df_train_wide (Some df_test) None "markers" "Sales" None) w0 =
  run (plot df_train (Some df_test) None "markers" "Sales" None) w0.
Proof.
  assert (H1 : same_series df_train_wide df_train)
    by (split; reflexivity).
  assert (H2 : option_Forall2 same_series (Some df_test) (Some df_test))
    by (constructor; split; reflexivity).
  assert (H3 : option_Forall2 same_series (@None DataFrame) None)
    by constructor.
  split; [exact H1|]. split; [exact H2|]. split; [exact H3|].
  exact (X3_first_column_only sample_accepts sample_color_error
           sample_template _ _ _ _ _ _ "markers" "Sales" None w0 H1 H2 H3).
Defined.

Lemma X4_witness :
  "markers" ∈ ["markers"; "lines"] ∧
  df_nocol ∈ frames df_train (Some df_nocol) None ∧
  columns df_nocol = [] ∧
  ∃ w', run (plot df_train (Some df_nocol) None "markers" "Sales" None) w0 =
          (Raise (IndexError "single positional indexer is out-of-bounds"),
           w') ∧
        displayed w' = displayed w0.
Proof.
  assert (Hdf : df_nocol ∈ frames df_train (Some df_nocol) None)
    by (right; left).
  assert (Hkey : ∀ role, needs (Some df_nocol) None role →
                         accepted sample_accepts (resolve_colors None) role).
  { intros role [->|[[_ ->]|[[f Hf] _]]].
    - by exists "#0072B2".
    - by exists "#000000".
    - discriminate Hf. }
  split; [exact sample_mode_markers|]. split; [exact Hdf|].
  split; [reflexivity|].
  exact (X4_no_column_index_error sample_accepts sample_color_error
           sample_template df_train (Some df_nocol) None "markers" "Sales"
           None w0 df_nocol sample_mode_markers Hkey Hdf eq_refl).
Defined.

(** A colour Plotly does not take: the ValueError is Plotly's, not that
    of the mode check. *)
Lemma X5_witness :
  let call := run (plot df_train (Some df_test) None "lines" "Sales"
                        (Some colors_bogus)) w0 in
  let e := ValueError (sample_color_error "scatter.line" "bogus") in
  call = (Raise e, call.2) ∧
  ((e = ValueError
          "Invalid value for test_data_mode. Choose 'markers' or 'lines'." ∧
    ("lines" ∉ ["markers"; "lines"]) ∧ call.2 = w0) ∨
   ("lines" ∈ ["markers"; "lines"] ∧ displayed call.2 = displayed w0 ∧
    ((e = IndexError "single positional indexer is out-of-bounds" ∧
      ∃ df, df ∈ frames df_train (Some df_test) None ∧ columns df = []) ∨
     (∃ k, e = KeyError k ∧ needs (Some df_test) None k ∧
           resolve_colors (Some colors_bogus) !! k = None) ∨
     (∃ role owner c,
        e = ValueError (sample_color_error owner c) ∧
        needs (Some df_test) None role ∧
        resolve_colors (Some colors_bogus) !! role = Some c ∧
        valid_color sample_accepts c = false)))).
Proof.
  split; [reflexivity|].
  exact (X5_exceptions sample_accepts sample_color_error sample_template
           df_train (Some df_test) None "lines" "Sales" (Some colors_bogus)
           w0 _ _ eq_refl).
Defined.

Lemma X6_witness :
  (∀ role, needs None None role →
           colors_extra !! role = colors_plain !! role) ∧
  colors_extra ≠ colors_plain ∧
  run (plot df_train None None "lines" "Sales" (Some colors_extra)) w0 =
  run (plot df_train None None "lines" "Sales" (Some colors_plain)) w0.
Proof.
  assert (Hk : ∀ role, needs None None role →
                       colors_extra !! role = colors_plain !! role).
  { intros role [->|[[[v Hv] _]|[[v Hv] _]]];
      [reflexivity | discriminate Hv | discriminate Hv]. }
  split; [exact Hk|]. split.
  - intros Heq.
    assert (Hb : colors_extra !! "background" = colors_plain !! "background")
      by (by rewrite Heq).
    discriminate Hb.
  - exact (X6_only_needed_keys sample_accepts sample_color_error
             sample_template df_train None None "lines" "Sales"
             colors_extra colors_plain w0 Hk).
Defined.

Lemma X7_witness :
  let call := run (plot df_train_wide None (Some df_fc) "markers" "Sales"
                        None) w0 in
  call = (Ok tt, call.2) ∧
  ∃ fig,
    displayed call.2 = displayed w0 ++ [fig] ∧
    (λ t, (x t, Ok (y t))) <$> data fig =
    (λ df, (index df, iloc_col0 df)) <$> frames df_train_wide None (Some df_fc).
Proof.
  split; [reflexivity|].
  exact (X7_trace_data sample_accepts sample_color_error sample_template
           df_train_wide None (Some df_fc) "markers" "Sales" None w0 _
           eq_refl).
Defined.

Lemma X10_witness :
  has_column df_train_wide ∧
  ∃ ys fig,
    iloc_col0 df_train_wide = Ok ys ∧
    run (plot_time_series_defaults sample_accepts sample_color_error
           sample_template df_train_wide) w0 =
      (Ok tt, mkWorld (figures w0 ++ [fig]) (displayed w0 ++ [fig])) ∧
    data fig = [mkScatter (index df_train_wide) ys "lines" "Training Data"
                          None (Some (mkLine "#0072B2" None))] ∧
    y_title (yaxis (layout fig)) = Some "Value".
Proof.
  assert (H : has_column df_train_wide) by discriminate.
  split; [exact H|].
  exact (X10_defaults sample_accepts sample_color_error sample_template
           df_train_wide w0 H).
Defined.

Lemma X11_witness :
  let call := run (plot df_train (Some df_test) (Some df_nocol) "markers"
                        "Sales" None) w0 in
  "markers" ∈ ["markers"; "lines"] ∧
  call = (Raise (IndexError "single positional indexer is out-of-bounds"),
          call.2) ∧
  ∃ fig,
    figures call.2 = figures w0 ++ [fig] ∧
    displayed call.2 = displayed w0 ∧
    layout fig = empty_layout sample_template ∧
    name <$> data fig ∈ [[]; ["Training Data"]; ["Training Data"; "Test Data"]].
Proof.
  split; [exact sample_mode_markers|]. split; [reflexivity|].
  exact (X11_partial_figure sample_accepts sample_color_error sample_template
           df_train (Some df_test) (Some df_nocol) "markers" "Sales" None w0
           _ _ sample_mode_markers eq_refl).
Defined.

Lemma X12_witness :
  let call := plot df_train (Some df_test) None "markers" "Sales" None in
  run call w0 = (Ok tt, (run call w0).2) ∧
  ∃ fig,
    (run call w0).2 = mkWorld (figures w0 ++ [fig]) (displayed w0 ++ [fig]) ∧
    run (call;; call) w0 =
    (Ok tt, mkWorld (figures w0 ++ [fig; fig]) (displayed w0 ++ [fig; fig])).
Proof.
  split; [reflexivity|].
  exact (X12_twice sample_accepts sample_color_error sample_template
           df_train (Some df_test) None "markers" "Sales" None w0 _ eq_refl).
Defined.
